(** * algosdk.algod: the REST client of the algod node daemon

    A shallow embedding of [algosdk/algod.py] (class [AlgodClient]) and the
    properties its specification states about it.

    Python text ([str]) is a [string] holding the UTF-8 encoding of the text,
    [bytes] is a list of [Byte.byte], a [dict] is an insertion-ordered
    association list living in a store of objects, and a method of the client
    is a computation in a state-and-exception monad over that store, the
    client object and the log of requests handed to the HTTP layer. *)

From Stdlib Require Import ZArith String Ascii List Bool Lia DecimalString.
From Stdlib Require DecimalZ DecimalPos.
From stdpp Require Import gmap strings list fin_maps.

Abbreviation bytes := (list Byte.byte).

(** The double-quote character, for writing JSON texts. *)
Definition dquote : ascii := "034"%char.
Definition quoted (s : string) : string := String dquote (s +:+ String dquote "").

(** ** Python values *)

(** Scalars stored in the dictionaries the client builds (headers, query
    parameters): [int] and [str]. *)
Inductive value : Type :=
| VInt (z : Z)
| VStr (s : string).

#[global] Instance value_eq_dec : EqDecision value.
Proof. solve_decision. Defined.

(** What [json.loads] returns: [None], [bool], [int], [float] (kept as its
    literal), [str], [list], [dict]. *)
#[warnings="-register-all"]
Inductive json : Type :=
| JNull
| JBool (b : bool)
| JInt (z : Z)
| JFloat (literal : string)
| JStr (s : string)
| JList (items : list json)
| JDict (fields : list (string * json)).

(** A [dict] with [str] keys, in insertion order. *)
Abbreviation dict := (list (string * value)).

Fixpoint dict_get {V : Type} (d : list (string * V)) (k : string) : option V :=
  match d with
  | [] => None
  | (k', v) :: d' => if String.eqb k' k then Some v else dict_get d' k
  end.

(** [d[k] = v]: an existing key keeps its position, a new one goes last. *)
Fixpoint dict_set (d : dict) (k : string) (v : value) : dict :=
  match d with
  | [] => [(k, v)]
  | (k', v') :: d' =>
      if String.eqb k' k then (k', v) :: d' else (k', v') :: dict_set d' k v
  end.

(** [d.update(other)]: the entries of [other], in its order, set in [d]. *)
Definition dict_update (d other : dict) : dict :=
  fold_left (fun acc kv => dict_set acc kv.1 kv.2) other d.

(** Truth value of a [dict]. *)
Definition dict_truthy (d : dict) : bool :=
  match d with [] => false | _ :: _ => true end.

(** ** The standard library, as far as the client uses it *)

Module PyStr.
(** [str(n)] for an [int]. *)
Definition str_of_int (z : Z) : string := NilZero.string_of_int (Z.to_int z).

Definition str (v : value) : string :=
  match v with
  | VInt z => str_of_int z
  | VStr s => s
  end.

(** [b.decode("utf-8")]: well-formed UTF-8 only (no overlong forms, no
    surrogates, nothing above U+10FFFF). *)
Definition between (lo hi : N) (b : Byte.byte) : bool :=
  (N.leb lo (Byte.to_N b) && N.leb (Byte.to_N b) hi)%bool.

Definition continuation : Byte.byte -> bool := between 128 191.

Fixpoint utf8_valid (bs : bytes) : bool :=
  match bs with
  | [] => true
  | b0 :: r0 =>
      if between 0 127 b0 then utf8_valid r0
      else if between 194 223 b0 then
        match r0 with
        | b1 :: r1 => continuation b1 && utf8_valid r1
        | _ => false
        end
      else if between 224 239 b0 then
        match r0 with
        | b1 :: b2 :: r2 =>
            (if between 224 224 b0 then between 160 191 b1
             else if between 237 237 b0 then between 128 159 b1
             else continuation b1)
            && continuation b2 && utf8_valid r2
        | _ => false
        end
      else if between 240 244 b0 then
        match r0 with
        | b1 :: b2 :: b3 :: r3 =>
            (if between 240 240 b0 then between 144 191 b1
             else if between 244 244 b0 then between 128 143 b1
             else continuation b1)
            && continuation b2 && continuation b3 && utf8_valid r3
        | _ => false
        end
      else false
  end.

Definition decode_utf8 (bs : bytes) : option string :=
  if utf8_valid bs then Some (String.string_of_list_byte bs) else None.
End PyStr.

Module UrlParse.
(** [urllib.parse.quote_plus] with its default arguments: letters, digits
    and [_.-~] stay, a space becomes [+], every other byte of the UTF-8
    text becomes [%XX]. *)
Definition always_safe (c : ascii) : bool :=
  let n := N_of_ascii c in
  ((N.leb 65 n && N.leb n 90) || (N.leb 97 n && N.leb n 122)
   || (N.leb 48 n && N.leb n 57)
   || N.eqb n 95 || N.eqb n 46 || N.eqb n 45 || N.eqb n 126)%bool.

Definition hex_digit (n : N) : ascii :=
  if N.ltb n 10 then ascii_of_N (48 + n) else ascii_of_N (55 + n).

Definition quote_char (c : ascii) : string :=
  if always_safe c then String c ""
  else if Ascii.eqb c " " then "+"
  else String "%" (String (hex_digit (N.div (N_of_ascii c) 16))
                     (String (hex_digit (N.modulo (N_of_ascii c) 16)) "")).

Fixpoint quote_plus (s : string) : string :=
  match s with
  | EmptyString => ""
  | String c s' => quote_char c +:+ quote_plus s'
  end.

Fixpoint join (sep : string) (parts : list string) : string :=
  match parts with
  | [] => ""
  | [p] => p
  | p :: ps => p +:+ sep +:+ join sep ps
  end.

(** [urllib.parse.urlencode(d)] for a dict: [k=v] pairs, each side passed
    through [str] and [quote_plus], joined with [&]. *)
Definition urlencode (d : dict) : string :=
  join "&" (map (fun kv => quote_plus kv.1 +:+ "=" +:+ quote_plus (PyStr.str kv.2)) d).
End UrlParse.


Module Base64.
(** Position of a character in the standard alphabet [A-Za-z0-9+/]. *)
Definition b64_index (c : ascii) : option N :=
  let n := N_of_ascii c in
  if (N.leb 65 n && N.leb n 90)%bool then Some (n - 65)%N
  else if (N.leb 97 n && N.leb n 122)%bool then Some (n - 71)%N
  else if (N.leb 48 n && N.leb n 57)%bool then Some (n + 4)%N
  else if N.eqb n 43 then Some 62%N
  else if N.eqb n 47 then Some 63%N
  else None.

(** A computed value stored into an output byte: the low eight bits. *)
Definition byte_of_N (n : N) : Byte.byte :=
  match Byte.of_N (N.modulo n 256) with
  | Some b => b
  | None => Byte.x00
  end.

(** [binascii.a2b_base64] as [base64.b64decode] calls it (not strict):
    characters outside the alphabet are skipped, a pad sequence that
    completes a quad ends the input, and input ending inside a quad is an
    error ([None]).  [quad_pos], [leftchar] and [pads] are the decoder's
    loop variables. *)
Fixpoint a2b_base64 (s : string) (quad_pos : nat) (leftchar : N) (pads : nat)
  : option bytes :=
  match s with
  | EmptyString => if Nat.eqb quad_pos 0 then Some [] else None
  | String c s' =>
      if Ascii.eqb c "=" then
        if Nat.leb 2 quad_pos then
          if Nat.leb 4 (quad_pos + S pads) then Some []
          else a2b_base64 s' quad_pos leftchar (S pads)
        else a2b_base64 s' quad_pos leftchar pads
      else
        match b64_index c with
        | None => a2b_base64 s' quad_pos leftchar pads
        | Some this_ch =>
            match quad_pos with
            | 0 => a2b_base64 s' 1 this_ch 0
            | 1 =>
                cons (byte_of_N (N.lor (N.shiftl leftchar 2) (N.shiftr this_ch 4)))
                  <$> a2b_base64 s' 2 (N.land this_ch 15) 0
            | 2 =>
                cons (byte_of_N (N.lor (N.shiftl leftchar 4) (N.shiftr this_ch 2)))
                  <$> a2b_base64 s' 3 (N.land this_ch 3) 0
            | _ =>
                cons (byte_of_N (N.lor (N.shiftl leftchar 6) this_ch))
                  <$> a2b_base64 s' 0 0%N 0
            end
        end
  end.

Fixpoint is_ascii (s : string) : bool :=
  match s with
  | EmptyString => true
  | String c s' => N.ltb (N_of_ascii c) 128 && is_ascii s'
  end.

(** Why [base64.b64decode] failed. *)
Inductive failure := NotAscii | BadPadding.

(** [base64.b64decode(s)] for a [str]: the text must be ASCII
    ([ValueError] otherwise), then [a2b_base64] ([binascii.Error]). *)
Definition b64decode (s : string) : failure + bytes :=
  if is_ascii s then
    match a2b_base64 s 0 0%N 0 with
    | Some bs => inr bs
    | None => inl BadPadding
    end
  else inl NotAscii.

(** [base64.b64encode]: three bytes give four characters, a last group of
    one or two bytes is padded with [=]. *)
Definition b64_char (n : N) : ascii :=
  if N.ltb n 26 then ascii_of_N (65 + n)
  else if N.ltb n 52 then ascii_of_N (71 + n)
  else if N.ltb n 62 then ascii_of_N (n - 4)
  else if N.eqb n 62 then "+"%char
  else "/"%char.

Fixpoint b64encode (bs : bytes) : string :=
  match bs with
  | [] => ""
  | [b1] =>
      let n1 := Byte.to_N b1 in
      String (b64_char (N.shiftr n1 2))
        (String (b64_char (N.shiftl (N.land n1 3) 4)) "==")
  | [b1; b2] =>
      let n1 := Byte.to_N b1 in
      let n2 := Byte.to_N b2 in
      String (b64_char (N.shiftr n1 2))
        (String (b64_char (N.lor (N.shiftl (N.land n1 3) 4) (N.shiftr n2 4)))
           (String (b64_char (N.shiftl (N.land n2 15) 2)) "="))
  | b1 :: b2 :: b3 :: rest =>
      let n1 := Byte.to_N b1 in
      let n2 := Byte.to_N b2 in
      let n3 := Byte.to_N b3 in
      String (b64_char (N.shiftr n1 2))
        (String (b64_char (N.lor (N.shiftl (N.land n1 3) 4) (N.shiftr n2 4)))
           (String (b64_char (N.lor (N.shiftl (N.land n2 15) 2) (N.shiftr n3 6)))
              (String (b64_char (N.land n3 63)) (b64encode rest))))
  end.
End Base64.

(** ** Exceptions, objects and the world a call runs in *)

Inductive exn : Type :=
| AlgodHTTPError (arg : json)          (* error.AlgodHTTPError(arg) *)
| HTTPError (code : Z) (body : bytes)  (* urllib.error.HTTPError, e.read() = body *)
| URLError (reason : string)           (* urllib.error.URLError: no HTTP answer *)
| JSONDecodeError                      (* json.JSONDecodeError *)
| UnicodeDecodeError
| KeyError (key : string)
| TypeError
| ValueError
| BinasciiError                        (* binascii.Error *)
| SystemError.                         (* a reference to no object: not reachable
                                          from a well-formed store *)

(** References to [dict] objects. *)
Abbreviation loc := positive.

Record AlgodClient : Type := {
  algod_token : string;
  algod_address : string;
  extended_header : option loc          (* [None] or a dict *)
}.

(** The arguments of [urllib.request.Request(url, headers=, method=, data=)]:
    what the client hands to urllib.  What urllib then does with the URL and
    the header names is not part of the client. *)
Record Request : Type := {
  req_url : string;
  req_headers : dict;
  req_method : string;
  req_data : option bytes
}.

(** What [urlopen] does with a request. *)
Inductive http_result : Type :=
| Responded (body : bytes)              (* returns; resp.read() = body *)
| HttpFailed (code : Z) (body : bytes)  (* raises HTTPError *)
| TransportFailed (reason : string).    (* raises URLError *)

(** The client object, the store of dicts, and the requests handed to the
    HTTP layer so far, oldest first. *)
Record world : Type := {
  self : AlgodClient;
  heap : gmap loc dict;
  sent : list Request
}.

Inductive outcome (A : Type) : Type :=
| Ret (a : A)
| Raise (e : exn).
Arguments Ret {A} a.
Arguments Raise {A} e.

Definition M (A : Type) : Type := world -> outcome A * world.

Definition ret {A : Type} (a : A) : M A := fun w => (Ret a, w).

Definition bind {A B : Type} (c : M A) (f : A -> M B) : M B :=
  fun w =>
    match c w with
    | (Ret a, w') => f a w'
    | (Raise e, w') => (Raise e, w')
    end.

Notation "'let!' x := c 'in' k" := (bind c (fun x => k))
  (at level 10, x name, c at level 100, k at level 200).
Notation "c ;;; k" := (bind c (fun _ => k))
  (at level 100, k at level 200, right associativity).

Definition raise {A : Type} (e : exn) : M A := fun w => (Raise e, w).

(** [try: body except ...: handler]: [handler e] is [None] when no [except]
    clause matches [e]. *)
Definition try_except {A : Type} (body : M A) (handler : exn -> option (M A)) : M A :=
  fun w =>
    match body w with
    | (Ret a, w') => (Ret a, w')
    | (Raise e, w') =>
        match handler e with
        | Some h => h w'
        | None => (Raise e, w')
        end
    end.

(** [self.<attr>] *)
Definition self_attr {A : Type} (attr : AlgodClient -> A) : M A :=
  fun w => (Ret (attr (self w)), w).

(** A new dict object: [{}], [dict()], [{k: v}]. *)
Definition new_dict (d : dict) : M loc :=
  fun w =>
    let l := fresh (dom (heap w)) in
    (Ret l, {| self := self w; heap := <[l := d]> (heap w); sent := sent w |}).

Definition deref (l : loc) : M dict :=
  fun w =>
    match heap w !! l with
    | Some d => (Ret d, w)
    | None => (Raise SystemError, w)
    end.

Definition assign (l : loc) (d : dict) : M unit :=
  fun w => (Ret tt, {| self := self w; heap := <[l := d]> (heap w); sent := sent w |}).

(** [d[k] = v] *)
Definition setitem (l : loc) (k : string) (v : value) : M unit :=
  let! d := deref l in assign l (dict_set d k v).

(** [d.update(other)] *)
Definition update (l other : loc) : M unit :=
  let! o := deref other in
  let! d := deref l in
  assign l (dict_update d o).

(** [if x:] for [x] that is [None] or a dict. *)
Definition truthy (x : option loc) : M bool :=
  match x with
  | None => ret false
  | Some l => let! d := deref l in ret (dict_truthy d)
  end.

(** [if x: d.update(x)] for [x] that is [None] or a dict. *)
Definition update_if_truthy (l : loc) (x : option loc) : M unit :=
  let! t := truthy x in
  match x with
  | Some x' => if t then update l x' else ret tt
  | None => ret tt
  end.

(** [v[k]] for a decoded JSON value and a [str] key. *)
Definition getitem (v : json) (k : string) : M json :=
  match v with
  | JDict fields =>
      match dict_get fields k with
      | Some x => ret x
      | None => raise (KeyError k)
      end
  | _ => raise TypeError
  end.

Definition decode (b : bytes) : M string :=
  match PyStr.decode_utf8 b with
  | Some s => ret s
  | None => raise UnicodeDecodeError
  end.

Definition b64decode (s : string) : M bytes :=
  match Base64.b64decode s with
  | inr b => ret b
  | inl Base64.NotAscii => raise ValueError
  | inl Base64.BadPadding => raise BinasciiError
  end.

(** ** What the module takes from outside

    The [constants] and [encoding] modules of the package, [json.loads], and
    the network behind [urlopen], whose answer may depend on the requests
    made before. *)
Record Env : Type := {
  algod_auth_header : string;            (* constants.algod_auth_header *)
  no_auth : list string;                 (* constants.no_auth *)
  unversioned_paths : list string;       (* constants.unversioned_paths *)
  api_version_path_prefix : string;      (* constants.api_version_path_prefix *)
  SignedTransaction : Type;
  msgpack_encode : SignedTransaction -> string;   (* encoding.msgpack_encode *)
  json_loads : string -> option json;    (* [None]: JSONDecodeError *)
  network : list Request -> Request -> http_result
}.

(** ** The client *)

Section Client.
Context (E : Env).

Definition loads (s : string) : M json :=
  match json_loads E s with
  | Some v => ret v
  | None => raise JSONDecodeError
  end.

(** [Request(...)] followed by [urlopen(req)]. *)
Definition urlopen (req : Request) : M bytes :=
  fun w =>
    let w' := {| self := self w; heap := heap w; sent := sent w ++ [req] |} in
    match network E (sent w) req with
    | Responded body => (Ret body, w')
    | HttpFailed code body => (Raise (HTTPError code body), w')
    | TransportFailed reason => (Raise (URLError reason), w')
    end.

(** [AlgodClient.__init__] *)
Definition init (algod_token algod_address : string) (extended_header : option loc)
  : AlgodClient :=
  {| algod_token := algod_token;
     algod_address := algod_address;
     extended_header := extended_header |}.

(** [AlgodClient.algod_request]: the header dict, the path, the query, the
    request, and the answer decoded or the error raised. *)
Definition algod_request (method requrl : string) (params : option loc)
    (data : option bytes) (opt_header : option loc) : M json :=
  let! header := new_dict [] in
  let! ext := self_attr extended_header in
  update_if_truthy header ext;;;
  update_if_truthy header opt_header;;;
  (if bool_decide (requrl ∉ no_auth E) then
     let! token := self_attr algod_token in
     let! auth := new_dict [(algod_auth_header E, VStr token)] in
     update header auth
   else ret tt);;;
  let requrl :=
    if bool_decide (requrl ∉ unversioned_paths E)
    then api_version_path_prefix E +:+ requrl
    else requrl in
  let! t := truthy params in
  let! requrl :=
    match params with
    | Some params' =>
        if t then
          let! p := deref params' in
          ret (requrl +:+ "?" +:+ UrlParse.urlencode p)
        else ret requrl
    | None => ret requrl
    end in
  let! address := self_attr algod_address in
  let! h := deref header in
  let req := {| req_url := address +:+ requrl; req_headers := h;
                req_method := method; req_data := data |} in
  let! resp :=
    try_except (urlopen req) (fun e =>
      match e with
      | HTTPError _ body =>
          Some (let! e := decode body in
                try_except
                  (let! v := loads e in
                   let! message := getitem v "message" in
                   raise (AlgodHTTPError message))
                  (fun _ => Some (raise (AlgodHTTPError (JStr e)))))
      | _ => None
      end) in
  let! s := decode resp in
  loads s.

Definition status : M json :=
  let req := "/status" in
  algod_request "GET" req None None None.

Definition health : M json :=
  let req := "/health" in
  algod_request "GET" req None None None.

Definition status_after_block (block_num : Z) : M json :=
  let req := "/status/wait-for-block-after/" +:+ PyStr.str_of_int block_num in
  algod_request "GET" req None None None.

Definition pending_transactions (max_txns : Z) : M json :=
  let! query := new_dict [("max", VInt max_txns)] in
  let req := "/transactions/pending" in
  algod_request "GET" req (Some query) None None.

Definition versions : M json :=
  let req := "/versions" in
  algod_request "GET" req None None None.

Definition ledger_supply : M json :=
  let req := "/ledger/supply" in
  algod_request "GET" req None None None.

(** [if arg is not None: query[key] = arg] *)
Definition set_if_given (query : loc) (key : string) (arg : option value) : M unit :=
  match arg with
  | Some v => setitem query key v
  | None => ret tt
  end.

Definition transactions_by_address (address : string)
    (first last limit from_date to_date : option value) : M json :=
  let! query := new_dict [] in
  let! _ := set_if_given query "firstRound" first in
  let! _ := set_if_given query "lastRound" last in
  let! _ := set_if_given query "max" limit in
  let! _ := set_if_given query "toDate" to_date in
  let! _ := set_if_given query "fromDate" from_date in
  let req := "/account/" +:+ address +:+ "/transactions" in
  algod_request "GET" req (Some query) None None.

Definition account_info (address : string) : M json :=
  let req := "/account/" +:+ address in
  algod_request "GET" req None None None.

Definition transaction_info (address transaction_id : string) : M json :=
  let req := "/account/" +:+ address +:+ "/transaction/" +:+ transaction_id in
  algod_request "GET" req None None None.

Definition pending_transaction_info (transaction_id : string) : M json :=
  let req := "/transactions/pending/" +:+ transaction_id in
  algod_request "GET" req None None None.

Definition transaction_by_id (transaction_id : string) : M json :=
  let req := "/transaction/" +:+ transaction_id in
  algod_request "GET" req None None None.

Definition suggested_fee : M json :=
  let req := "/transactions/fee" in
  algod_request "GET" req None None None.

Definition suggested_params : M json :=
  let req := "/transactions/params" in
  algod_request "GET" req None None None.

Definition send_raw_transaction (txn : string) (request_header : option loc) : M json :=
  let! txn := b64decode txn in
  let req := "/transactions" in
  let! resp := algod_request "POST" req None (Some txn) request_header in
  getitem resp "txId".

Definition send_transaction (txn : SignedTransaction E) (request_header : option loc)
  : M json :=
  send_raw_transaction (msgpack_encode E txn) request_header.

Definition block_info (round : Z) : M json :=
  let req := "/block/" +:+ PyStr.str_of_int round in
  algod_request "GET" req None None None.

End Client.

(** * Describing a call *)

Definition with_heap (w : world) (h : gmap loc dict) : world :=
  {| self := self w; heap := h; sent := sent w |}.

(** An optional argument refers to an object of the store. *)
Definition allocated (w : world) (x : option loc) : Prop :=
  ∀ l, x = Some l → is_Some (heap w !! l).

(** The entries of an optional dict argument; none for [None]. *)
Definition contents (w : world) (x : option loc) : dict :=
  match x with
  | Some l => default [] (heap w !! l)
  | None => []
  end.

(** ** What [algod_request] hands to the HTTP layer, and what it answers *)

Section Describe.
Context (E : Env).

(** The header dict of lines 44-55, as a function of the two optional
    dicts' entries. *)
Definition headers_for (requrl token : string) (ext opt : dict) : dict :=
  let h := dict_update (dict_update [] ext) opt in
  if bool_decide (requrl ∉ no_auth E)
  then dict_set h (algod_auth_header E) (VStr token)
  else h.

(** The path of lines 57-58. *)
Definition versioned (requrl : string) : string :=
  if bool_decide (requrl ∉ unversioned_paths E)
  then api_version_path_prefix E +:+ requrl
  else requrl.

(** The path and query of lines 57-60. *)
Definition path_for (requrl : string) (params : dict) : string :=
  if dict_truthy params
  then versioned requrl +:+ "?" +:+ UrlParse.urlencode params
  else versioned requrl.

Definition request_for (w : world) (method requrl : string) (params : option loc)
    (data : option bytes) (opt_header : option loc) : Request :=
  {| req_url := algod_address (self w) +:+ path_for requrl (contents w params);
     req_headers :=
       headers_for requrl (algod_token (self w))
         (contents w (extended_header (self w))) (contents w opt_header);
     req_method := method;
     req_data := data |}.

(** The outcome of lines 65-73 for each answer of the network. *)
Definition answer (r : http_result) : outcome json :=
  match r with
  | Responded body =>
      match PyStr.decode_utf8 body with
      | Some s =>
          match json_loads E s with
          | Some v => Ret v
          | None => Raise JSONDecodeError
          end
      | None => Raise UnicodeDecodeError
      end
  | HttpFailed _ body =>
      match PyStr.decode_utf8 body with
      | Some e => Raise (AlgodHTTPError (JStr e))
      | None => Raise UnicodeDecodeError
      end
  | TransportFailed reason => Raise (URLError reason)
  end.


(** The query part of the URL of lines 59-60: nothing for an empty dict. *)
Definition query_string (params : dict) : string :=
  if dict_truthy params then "?" +:+ UrlParse.urlencode params else "".
End Describe.

(** The entry an optional argument contributes to a query, if supplied. *)
Definition given (key : string) (arg : option value) : dict :=
  match arg with
  | Some v => [(key, v)]
  | None => []
  end.

(** A dict after [if arg is not None: d[key] = arg]. *)
Definition dict_set_given (d : dict) (key : string) (arg : option value) : dict :=
  match arg with
  | Some v => dict_set d key v
  | None => d
  end.

(** ** The frame of a call: the client object and the dicts that exist *)

(** [w] is [w0] with, at most, more requests made and more objects in the
    store: the client's attributes and every dict of [w0] are as they were. *)
Definition framed (w0 w : world) : Prop :=
  self w = self w0 ∧ heap w0 ⊆ heap w.

(** [c] keeps the frame of [w0], whether it returns or raises, and what it
    returns satisfies [Q]. *)
Definition keeps {A : Type} (w0 : world) (c : M A) (Q : A → Prop) : Prop :=
  ∀ w, framed w0 w → framed w0 (c w).2 ∧ ∀ a, (c w).1 = Ret a → Q a.

Definition any {A : Type} : A → Prop := fun _ => True.

(** A reference that is not an object of [w0]. *)
Definition new_in (w0 : world) (l : loc) : Prop := heap w0 !! l = None.

(** One call of the client: the generic request or an endpoint wrapper, with
    its arguments. *)
Inductive call (E : Env) : Type :=
| AlgodRequest (method requrl : string) (params : option loc) (data : option bytes)
    (opt_header : option loc)
| Status
| Health
| StatusAfterBlock (block_num : Z)
| PendingTransactions (max_txns : Z)
| Versions
| LedgerSupply
| TransactionsByAddress (address : string)
    (first last limit from_date to_date : option value)
| AccountInfo (address : string)
| TransactionInfo (address transaction_id : string)
| PendingTransactionInfo (transaction_id : string)
| TransactionById (transaction_id : string)
| SuggestedFee
| SuggestedParams
| SendRawTransaction (txn : string) (request_header : option loc)
| SendTransaction (txn : SignedTransaction E) (request_header : option loc)
| BlockInfo (round : Z).

Definition perform (E : Env) (c : call E) : M json :=
  match c with
  | AlgodRequest _ method requrl params data opt_header =>
      algod_request E method requrl params data opt_header
  | Status _ => status E
  | Health _ => health E
  | StatusAfterBlock _ block_num => status_after_block E block_num
  | PendingTransactions _ max_txns => pending_transactions E max_txns
  | Versions _ => versions E
  | LedgerSupply _ => ledger_supply E
  | TransactionsByAddress _ address first last limit from_date to_date =>
      transactions_by_address E address first last limit from_date to_date
  | AccountInfo _ address => account_info E address
  | TransactionInfo _ address transaction_id => transaction_info E address transaction_id
  | PendingTransactionInfo _ transaction_id => pending_transaction_info E transaction_id
  | TransactionById _ transaction_id => transaction_by_id E transaction_id
  | SuggestedFee _ => suggested_fee E
  | SuggestedParams _ => suggested_params E
  | SendRawTransaction _ txn request_header => send_raw_transaction E txn request_header
  | SendTransaction _ txn request_header => send_transaction E txn request_header
  | BlockInfo _ round => block_info E round
  end.

(** ** Checks behind the base64 round trip *)

Module Base64Checks.
Import Base64.

(** The numbers below [k]. *)
Definition below (k : nat) : list N := map N.of_nat (seq 0 k).

(** Every character of the alphabet is ASCII, is not the pad, and has the
    index it was taken from. *)
Definition char_ok (n : N) : bool :=
  match b64_index (b64_char n) with
  | Some m => N.eqb m n
  | None => false
  end
  && negb (Ascii.eqb (b64_char n) "=")
  && N.ltb (N_of_ascii (b64_char n)) 128.

(** The bit arithmetic of one group of three bytes, checked on every pair of
    byte values. *)
Definition quad12_ok (n1 n2 : N) : bool :=
  let c2 := N.lor (N.shiftl (N.land n1 3) 4) (N.shiftr n2 4) in
  N.ltb (N.shiftr n1 2) 64 && N.ltb c2 64
  && N.eqb (N.modulo (N.lor (N.shiftl (N.shiftr n1 2) 2) (N.shiftr c2 4)) 256) n1
  && N.eqb (N.land c2 15) (N.shiftr n2 4).

Definition quad23_ok (n2 n3 : N) : bool :=
  let c3 := N.lor (N.shiftl (N.land n2 15) 2) (N.shiftr n3 6) in
  N.ltb c3 64
  && N.eqb (N.modulo (N.lor (N.shiftl (N.shiftr n2 4) 4) (N.shiftr c3 2)) 256) n2
  && N.eqb (N.land c3 3) (N.shiftr n3 6)
  && N.ltb (N.land n3 63) 64
  && N.eqb (N.modulo (N.lor (N.shiftl (N.shiftr n3 6) 6) (N.land n3 63)) 256) n3.

(** The same for a last group of one byte and of two bytes. *)
Definition tail1_ok (n1 : N) : bool :=
  let c2 := N.shiftl (N.land n1 3) 4 in
  N.ltb (N.shiftr n1 2) 64 && N.ltb c2 64
  && N.eqb (N.modulo (N.lor (N.shiftl (N.shiftr n1 2) 2) (N.shiftr c2 4)) 256) n1.

Definition tail2_ok (n2 : N) : bool :=
  let c3 := N.shiftl (N.land n2 15) 2 in
  N.ltb c3 64
  && N.eqb (N.modulo (N.lor (N.shiftl (N.shiftr n2 4) 4) (N.shiftr c3 2)) 256) n2.

End Base64Checks.

(** ** Posting a transaction, in the specification's words

    POST the canonical bytes of the signed transaction to [/transactions]
    and return the [txId] of the answer. *)
Definition post_transaction (E : Env) (raw : bytes) (request_header : option loc)
  : M json :=
  let! resp := algod_request E "POST" "/transactions" None (Some raw) request_header in
  getitem resp "txId".

(** * A node to run the client against

    Values for the constants (auth header [X-Algo-API-Token], API version
    prefix [/v1], [/health] free of both, [/versions] and [/metrics] free of
    the prefix), and a node at [http://localhost:8080] that answers a handful
    of URLs.  [parse] is [json.loads] on the texts this node produces;
    [encoding.msgpack_encode] is stood in for by base64 over bytes that are
    already the canonical encoding. *)

Module Localnet.
Definition utf8 (s : string) : bytes := String.list_byte_of_string s.

(** [{"message":"bad request"}] *)
Definition bad_request_body : string :=
  "{" +:+ quoted "message" +:+ ":" +:+ quoted "bad request" +:+ "}".

(** [{"txId":"TX1"}] *)
Definition txid_body : string :=
  "{" +:+ quoted "txId" +:+ ":" +:+ quoted "TX1" +:+ "}".

Definition parse (s : string) : option json :=
  if String.eqb s bad_request_body then Some (JDict [("message", JStr "bad request")])
  else if String.eqb s txid_body then Some (JDict [("txId", JStr "TX1")])
  else if String.eqb s "{}" then Some (JDict [])
  else if String.eqb s "null" then Some JNull
  else None.

Definition node (history : list Request) (req : Request) : http_result :=
  let url := req_url req in
  if String.eqb url "http://localhost:8080/v1/transactions"
  then Responded (utf8 txid_body)
  else if String.eqb url "http://localhost:8080/v1/block/100"
  then HttpFailed 400 (utf8 bad_request_body)
  else if String.eqb url "http://localhost:8080/v1/block/101"
  then HttpFailed 500 (utf8 "oops")
  else if String.eqb url "http://localhost:8080/v1/ledger/supply"
  then Responded (utf8 "<html>gateway</html>")
  else if String.eqb url "http://localhost:8080/health"
  then Responded (utf8 "null")
  else Responded (utf8 "{}").

Definition env : Env :=
  {| algod_auth_header := "X-Algo-API-Token";
     no_auth := ["/health"];
     unversioned_paths := ["/health"; "/versions"; "/metrics"];
     api_version_path_prefix := "/v1";
     SignedTransaction := bytes;
     msgpack_encode := Base64.b64encode;
     json_loads := parse;
     network := node |}.

(** A client with an extra header configured (object 1), and a per-call
    header dict (object 2) that carries the auth header's name. *)
Definition extra : loc := 1%positive.
Definition forged : loc := 2%positive.

Definition start : world :=
  {| self := init "secret" "http://localhost:8080" (Some extra);
     heap := {[ extra := [("X-Extra", VStr "1")];
                forged := [("X-Algo-API-Token", VStr "forged")] ]};
     sent := [] |}.
End Localnet.

(** * What a call sends, and a second node *)

(** [c] hands nothing to the HTTP layer. *)
Definition quiet {A : Type} (c : M A) : Prop :=
  ∀ w, sent (c w).2 = sent w.

(** [c] keeps the requests made so far and adds one at most. *)
Definition sends_at_most_one {A : Type} (c : M A) : Prop :=
  ∀ w, sent (c w).2 = sent w ∨ ∃ req, sent (c w).2 = sent w ++ [req].

(** The wrappers other than the two that broadcast a transaction. *)
Definition is_get_wrapper {E : Env} (c : call E) : bool :=
  match c with
  | AlgodRequest _ _ _ _ _ _ => false
  | SendRawTransaction _ _ _ => false
  | SendTransaction _ _ _ => false
  | _ => true
  end.

(** A node that cannot be reached for [/v1/status], fails on [/v1/block/7]
    with a body that is not UTF-8, answers a posted transaction with [{}]
    (for the body [0x00]) or [null], and everything else with [{}]; and a
    store with two dicts that share a key (objects 1 and 2) and an empty
    dict (object 3). *)
Module Barenode.
Definition node (history : list Request) (req : Request) : http_result :=
  let url := req_url req in
  if String.eqb url "http://localhost:8080/v1/status"
  then TransportFailed "Connection refused"
  else if String.eqb url "http://localhost:8080/v1/block/7"
  then HttpFailed 500 [Byte.xff]
  else if String.eqb url "http://localhost:8080/v1/transactions"
  then match req_data req with
       | Some [Byte.x00] => Responded (Localnet.utf8 "{}")
       | _ => Responded (Localnet.utf8 "null")
       end
  else Responded (Localnet.utf8 "{}").

Definition env : Env :=
  {| algod_auth_header := "X-Algo-API-Token";
     no_auth := ["/health"];
     unversioned_paths := ["/health"; "/versions"; "/metrics"];
     api_version_path_prefix := "/v1";
     SignedTransaction := bytes;
     msgpack_encode := Base64.b64encode;
     json_loads := Localnet.parse;
     network := node |}.

Definition configured : loc := 1%positive.
Definition per_call : loc := 2%positive.
Definition empty : loc := 3%positive.

Definition start : world :=
  {| self := init "secret" "http://localhost:8080" (Some configured);
     heap := {[ configured := [("X-Extra", VStr "1"); ("Accept", VStr "*/*")];
                per_call := [("X-Extra", VStr "2")];
                empty := [] ]};
     sent := [] |}.
End Barenode.

(** * Properties *)

(** ** Dictionaries *)

Section DictFacts.
Implicit Types (d o : dict) (k : string) (v : value).

Lemma dict_get_set_eq d k v : dict_get (dict_set d k v) k = Some v.
Proof.
  induction d as [|[k' v'] d IH]; simpl.
  - by rewrite String.eqb_refl.
  - destruct (String.eqb_spec k' k) as [->|Hne]; simpl.
    + by rewrite String.eqb_refl.
    + by destruct (String.eqb_spec k' k).
Qed.

Lemma dict_get_set_ne d k k' v :
  k ≠ k' → dict_get (dict_set d k v) k' = dict_get d k'.
Proof.
  intros Hne. induction d as [|[k0 v0] d IH]; simpl.
  - by destruct (String.eqb_spec k k').
  - destruct (String.eqb_spec k0 k) as [->|Hk]; simpl.
    + by destruct (String.eqb_spec k k').
    + by rewrite IH.
Qed.

Lemma dict_get_set d k k' v :
  dict_get (dict_set d k v) k' = if decide (k = k') then Some v else dict_get d k'.
Proof.
  case_decide as Hk; [subst; apply dict_get_set_eq | by apply dict_get_set_ne].
Qed.

Lemma dict_update_nil d : dict_update d [] = d.
Proof. reflexivity. Qed.

Lemma dict_update_cons d k v o :
  dict_update d ((k, v) :: o) = dict_update (dict_set d k v) o.
Proof. reflexivity. Qed.

(** A key is missing after [update] exactly when it is missing on both
    sides. *)
Lemma dict_get_update_None d o k :
  dict_get (dict_update d o) k = None ↔ dict_get d k = None ∧ dict_get o k = None.
Proof.
  revert d. induction o as [|[k0 v0] o IH]; intros d.
  - rewrite dict_update_nil. simpl. tauto.
  - rewrite dict_update_cons, IH, dict_get_set. simpl.
    destruct (String.eqb_spec k0 k) as [->|Hne]; case_decide;
      try congruence; intuition congruence.
Qed.

(** A key of [o] is bound after [update]. *)
Lemma dict_get_update_Some d o k :
  is_Some (dict_get o k) → is_Some (dict_get (dict_update d o) k).
Proof.
  intros Ho. destruct (dict_get (dict_update d o) k) eqn:Hu; [done|].
  apply dict_get_update_None in Hu as [_ Hu]. rewrite Hu in Ho.
  by destruct Ho.
Qed.

Lemma dict_update_singleton d k v : dict_update d [(k, v)] = dict_set d k v.
Proof. reflexivity. Qed.

Lemma dict_truthy_false d : dict_truthy d = false → d = [].
Proof. by destruct d. Qed.
End DictFacts.

(** ** Strings *)

Lemma append_cons a s t : String a s +:+ t = String a (s +:+ t).
Proof. reflexivity. Qed.

Lemma append_nil_r s : s +:+ "" = s.
Proof. induction s as [|a s IH]; [done|]. by rewrite append_cons, IH. Qed.

Lemma append_assoc s t u : (s +:+ t) +:+ u = s +:+ t +:+ u.
Proof. induction s as [|a s IH]; [done|]. by rewrite !append_cons, IH. Qed.

Lemma append_eq_l s t : s +:+ t = s → t = "".
Proof.
  intros H. apply (String.app_inj s). by rewrite append_nil_r.
Qed.

(** ** Running computations *)

Section Running.
Context {A B : Type}.
Implicit Types (c : M A) (f : A → M B) (w : world).

Lemma bind_run c f w a w' : c w = (Ret a, w') → bind c f w = f a w'.
Proof. intros H. unfold bind. by rewrite H. Qed.

Lemma bind_raise c f w e w' : c w = (Raise e, w') → bind c f w = (Raise e, w').
Proof. intros H. unfold bind. by rewrite H. Qed.
End Running.

Lemma with_heap_id w : with_heap w (heap w) = w.
Proof. by destruct w. Qed.

Lemma deref_run w l d : heap w !! l = Some d → deref l w = (Ret d, w).
Proof. intros H. unfold deref. by rewrite H. Qed.

Lemma new_dict_fresh w : heap w !! fresh (dom (heap w)) = None.
Proof. apply not_elem_of_dom, is_fresh. Qed.

Lemma allocated_ne w x l : allocated w x → heap w !! l = None → x ≠ Some l.
Proof. intros Hx Hl ->. destruct (Hx l eq_refl) as [d Hd]. congruence. Qed.

(** [if x: d.update(x)] leaves [d] holding its entries updated with those of
    [x], and changes nothing else. *)
Lemma update_if_truthy_run w l d x :
  heap w !! l = Some d → allocated w x → x ≠ Some l →
  update_if_truthy l x w
  = (Ret tt, with_heap w (<[l := dict_update d (contents w x)]> (heap w))).
Proof.
  intros Hl Hx Hne. unfold update_if_truthy, truthy, contents.
  destruct x as [x'|].
  - destruct (Hx x' eq_refl) as [o Ho]. rewrite Ho.
    erewrite bind_run; last by (erewrite bind_run; [|by apply deref_run]).
    destruct o as [|kv o]; cbn [dict_truthy default].
    + unfold ret. by rewrite dict_update_nil, insert_id, with_heap_id.
    + unfold update.
      erewrite bind_run; last by apply deref_run.
      erewrite bind_run; last by apply deref_run.
      done.
  - unfold bind, ret. by rewrite dict_update_nil, insert_id, with_heap_id.
Qed.

Lemma allocated_mono w w' x : allocated w x → heap w ⊆ heap w' → allocated w' x.
Proof.
  intros Hx Hsub l ->. destruct (Hx l eq_refl) as [d Hd]. exists d.
  by eapply lookup_weaken.
Qed.

Lemma contents_mono w w' x :
  allocated w x → heap w ⊆ heap w' → contents w' x = contents w x.
Proof.
  intros Hx Hsub. destruct x as [l|]; [|done]. simpl.
  destruct (Hx l eq_refl) as [d Hd]. rewrite Hd.
  by rewrite (lookup_weaken _ _ _ _ Hd Hsub).
Qed.

Section Respond.
Context (E : Env).

(** Lines 65-73 on a request already built. *)
Lemma respond_run (req : Request) (w : world) :
  (let! resp :=
     try_except (urlopen E req) (fun e =>
       match e with
       | HTTPError _ body =>
           Some (let! e := decode body in
                 try_except
                   (let! v := loads E e in
                    let! message := getitem v "message" in
                    raise (AlgodHTTPError message))
                   (fun _ => Some (raise (AlgodHTTPError (JStr e)))))
       | _ => None
       end) in
   let! s := decode resp in
   loads E s) w
  = (answer E (network E (sent w) req),
     {| self := self w; heap := heap w; sent := sent w ++ [req] |}).
Proof.
  unfold bind, try_except, urlopen, answer, decode, loads.
  destruct (network E (sent w) req) as [body|code body|reason]; simpl.
  - destruct (PyStr.decode_utf8 body) as [s|]; simpl; [|done].
    by destruct (json_loads E s).
  - destruct (PyStr.decode_utf8 body) as [e|]; simpl; [|done].
    unfold bind, loads, getitem, raise, ret.
    destruct (json_loads E e) as [v|]; simpl; [|done].
    destruct v as [| | | | | |fields]; simpl; try done.
    by destruct (dict_get fields "message").
  - done.
Qed.
End Respond.


(** [algod_request] hands exactly one request to the HTTP layer, the one
    [request_for] describes, answers as [answer] says, and only adds objects
    to the store. *)
Section RequestRun.
Context (E : Env).

Lemma algod_request_run w method requrl params data opt_header :
  allocated w (extended_header (self w)) →
  allocated w opt_header →
  allocated w params →
  let req := request_for E w method requrl params data opt_header in
  ∃ h', heap w ⊆ h' ∧
    algod_request E method requrl params data opt_header w
    = (answer E (network E (sent w) req),
       {| self := self w; heap := h'; sent := sent w ++ [req] |}).
Proof.
  intros Hext Hopt Hpar req.
  pose proof (new_dict_fresh w) as Hfresh.
  unfold algod_request.
  set (hl := fresh (dom (heap w))) in *.
  erewrite bind_run; last reflexivity.
  erewrite bind_run; last reflexivity.
  cbn [self]. fold hl.
  set (w1 := {| self := self w; heap := <[hl:=[]]> (heap w); sent := sent w |}).
  assert (Hsub1 : heap w ⊆ heap w1) by by apply insert_subseteq.
  erewrite bind_run; last first.
  { apply (update_if_truthy_run w1 hl []).
    - apply lookup_insert_eq.
    - by apply (allocated_mono w).
    - by apply (allocated_ne w). }
  rewrite (contents_mono w w1) by done.
  set (d2 := dict_update [] (contents w (extended_header (self w)))).
  set (w2 := with_heap w1 _).
  assert (Hsub2 : heap w ⊆ heap w2) by by apply insert_subseteq_r.
  erewrite bind_run; last first.
  { apply (update_if_truthy_run w2 hl d2).
    - apply lookup_insert_eq.
    - by apply (allocated_mono w).
    - by apply (allocated_ne w). }
  rewrite (contents_mono w w2 opt_header) by done.
  set (d3 := dict_update d2 (contents w opt_header)).
  set (w3 := with_heap w2 _).
  assert (Hsub3 : heap w ⊆ heap w3) by by apply insert_subseteq_r.
  assert (Hl3 : heap w3 !! hl = Some d3) by apply lookup_insert_eq.
  assert (Hself3 : self w3 = self w) by done.
  assert (Hsent3 : sent w3 = sent w) by done.
  clearbody w3. clear w1 w2 Hsub1 Hsub2.
  assert (∃ w4, (if bool_decide (requrl ∉ no_auth E)
      then
       let! token := self_attr algod_token
       in let! auth := new_dict [(algod_auth_header E, VStr token)]
          in update hl auth
      else ret ()) w3 = (Ret tt, w4)
      ∧ heap w ⊆ heap w4 ∧ self w4 = self w ∧ sent w4 = sent w
      ∧ heap w4 !! hl = Some (req_headers req)) as (w4 & Hrun & Hsub4 & Hself4 & Hsent4 & Hl4).
  { unfold req, request_for, headers_for. cbn [req_headers]. fold d2 d3.
    case_bool_decide.
    - pose proof (new_dict_fresh w3) as Hfresh3.
      eexists. split.
      { erewrite bind_run; last reflexivity.
        erewrite bind_run; last reflexivity.
        unfold update.
        erewrite bind_run; last by (apply deref_run; apply lookup_insert_eq).
        erewrite bind_run; last first.
        { apply deref_run. cbn [heap]. rewrite lookup_insert_ne; [exact Hl3|].
          intros Heq. rewrite Heq in Hfresh3. congruence. }
        reflexivity. }
      cbn [heap self sent]. rewrite Hself3. repeat split; try done.
      + apply insert_subseteq_r; [done|]. apply insert_subseteq_r; [|done].
        destruct (heap w !! fresh (dom (heap w3))) eqn:Hal; [|done].
        by rewrite (lookup_weaken _ _ _ _ Hal Hsub3) in Hfresh3.
      + by rewrite lookup_insert_eq.
    - exists w3. repeat split; done. }
  erewrite bind_run; last exact Hrun.
  clear Hrun.
  erewrite bind_run; last first.
  { instantiate (1 := w4). instantiate (1 := dict_truthy (contents w params)).
    unfold truthy, contents. destruct params as [p|]; [|done].
    destruct (Hpar p eq_refl) as [d Hd]. rewrite Hd.
    erewrite bind_run; last by (apply deref_run; eapply lookup_weaken).
    done. }
  erewrite bind_run; last first.
  { instantiate (1 := w4). instantiate (1 := path_for E requrl (contents w params)).
    unfold path_for, versioned, contents. destruct params as [p|]; [|done].
    destruct (Hpar p eq_refl) as [d Hd]. rewrite Hd. cbn [default id].
    destruct (dict_truthy d); [|done].
    erewrite bind_run; last by (apply deref_run; eapply lookup_weaken).
    done. }
  erewrite bind_run; last reflexivity.
  erewrite bind_run; last by apply deref_run.
  rewrite respond_run. rewrite Hself4, Hsent4.
  exists (heap w4). split; [done|]. reflexivity.
Qed.
End RequestRun.

(** ** Every call keeps the frame *)

Section Frame.
Context (w0 : world).

Lemma framed_refl : framed w0 w0.
Proof. by split. Qed.

Lemma keeps_ret {A} (a : A) (Q : A → Prop) : Q a → keeps w0 (ret a) Q.
Proof. intros Ha w Hw. split; [done|]. by intros a' [= <-]. Qed.

Lemma keeps_raise {A} (e : exn) (Q : A → Prop) : keeps w0 (raise e) Q.
Proof. intros w Hw. by split. Qed.

Lemma keeps_weaken {A} (c : M A) (Q Q' : A → Prop) :
  keeps w0 c Q → (∀ a, Q a → Q' a) → keeps w0 c Q'.
Proof. intros Hc HQ w Hw. destruct (Hc w Hw) as [? Hr]. split; eauto. Qed.

Lemma keeps_bind {A B} (c : M A) (f : A → M B) (Q : A → Prop) (R : B → Prop) :
  keeps w0 c Q → (∀ a, Q a → keeps w0 (f a) R) → keeps w0 (bind c f) R.
Proof.
  intros Hc Hf w Hw. destruct (Hc w Hw) as [Hw' Hr]. unfold bind.
  destruct (c w) as [[a|e] w']; simpl in *; [|by split].
  by apply (Hf a); [apply Hr|].
Qed.

Lemma keeps_try_except {A} (c : M A) (handler : exn → option (M A)) (Q : A → Prop) :
  keeps w0 c Q → (∀ e h, handler e = Some h → keeps w0 h Q) →
  keeps w0 (try_except c handler) Q.
Proof.
  intros Hc Hh w Hw. destruct (Hc w Hw) as [Hw' Hr]. unfold try_except.
  destruct (c w) as [[a|e] w']; simpl in *; [by split|].
  destruct (handler e) as [h|] eqn:He; [|by split].
  by apply (Hh e h).
Qed.

Lemma keeps_self_attr {A} (attr : AlgodClient → A) : keeps w0 (self_attr attr) any.
Proof. intros w Hw. by split. Qed.

Lemma keeps_deref l : keeps w0 (deref l) any.
Proof. intros w Hw. unfold deref. by destruct (heap w !! l). Qed.

Lemma keeps_new_dict d : keeps w0 (new_dict d) (new_in w0).
Proof.
  intros w [Hself Hheap].
  assert (Hnew : new_in w0 (fresh (dom (heap w)))).
  { unfold new_in. destruct (heap w0 !! fresh (dom (heap w))) eqn:Hl; [|done].
    pose proof (new_dict_fresh w) as Hf.
    by rewrite (lookup_weaken _ _ _ _ Hl Hheap) in Hf. }
  split; [split; [done|]|].
  - by apply insert_subseteq_r.
  - by intros a [= <-].
Qed.

Lemma keeps_assign l d : new_in w0 l → keeps w0 (assign l d) any.
Proof.
  intros Hl w [Hself Hheap]. split; [split; [done|]|done].
  by apply insert_subseteq_r.
Qed.

Lemma keeps_setitem l k v : new_in w0 l → keeps w0 (setitem l k v) any.
Proof.
  intros Hl. eapply keeps_bind; [apply keeps_deref|].
  intros d _. by apply keeps_assign.
Qed.

Lemma keeps_update l other : new_in w0 l → keeps w0 (update l other) any.
Proof.
  intros Hl. eapply keeps_bind; [apply keeps_deref|]. intros o _.
  eapply keeps_bind; [apply keeps_deref|]. intros d _.
  by apply keeps_assign.
Qed.

Lemma keeps_truthy x : keeps w0 (truthy x) any.
Proof.
  destruct x as [l|]; [|by apply keeps_ret].
  eapply keeps_bind; [apply keeps_deref|]. intros d _. by apply keeps_ret.
Qed.

Lemma keeps_update_if_truthy l x : new_in w0 l → keeps w0 (update_if_truthy l x) any.
Proof.
  intros Hl. eapply keeps_bind; [apply keeps_truthy|]. intros t _.
  destruct x as [x'|]; [|by apply keeps_ret].
  destruct t; [by apply keeps_update|by apply keeps_ret].
Qed.

Lemma keeps_getitem v k : keeps w0 (getitem v k) any.
Proof.
  destruct v; try apply keeps_raise. simpl.
  destruct (dict_get fields k); [by apply keeps_ret|apply keeps_raise].
Qed.

Lemma keeps_decode b : keeps w0 (decode b) any.
Proof.
  unfold decode. destruct (PyStr.decode_utf8 b); [by apply keeps_ret|apply keeps_raise].
Qed.

Lemma keeps_b64decode s : keeps w0 (b64decode s) any.
Proof.
  unfold b64decode.
  destruct (Base64.b64decode s) as [[]|]; [apply keeps_raise..|by apply keeps_ret].
Qed.
End Frame.

Ltac frame_step :=
  match goal with
  | |- keeps _ (bind _ _) _ => eapply keeps_bind; [|intros ? ?]
  | |- keeps _ (ret _) _ => apply (keeps_ret _ _ any I)
  | |- keeps _ (raise _) _ => apply keeps_raise
  | |- keeps _ (new_dict _) _ => apply keeps_new_dict
  | |- keeps _ (self_attr _) _ => apply keeps_self_attr
  | |- keeps _ (deref _) _ => apply keeps_deref
  | |- keeps _ (truthy _) _ => apply keeps_truthy
  | |- keeps _ (update _ _) _ => apply keeps_update; assumption
  | |- keeps _ (setitem _ _ _) _ => apply keeps_setitem; assumption
  | |- keeps _ (update_if_truthy _ _) _ => apply keeps_update_if_truthy; assumption
  | |- keeps _ (getitem _ _) _ => apply keeps_getitem
  | |- keeps _ (decode _) _ => apply keeps_decode
  | |- keeps _ (b64decode _) _ => apply keeps_b64decode
  | |- keeps _ (if ?b then _ else _) _ => destruct b
  | |- keeps _ (match ?x with _ => _ end) _ => destruct x
  end.

Section ClientFrame.
Context (E : Env) (w0 : world).

Lemma keeps_loads s : keeps w0 (loads E s) any.
Proof. unfold loads. destruct (json_loads E s); frame_step. Qed.

Lemma keeps_urlopen req : keeps w0 (urlopen E req) any.
Proof.
  intros w Hw. unfold urlopen.
  by destruct (network E (sent w) req).
Qed.

Lemma keeps_algod_request method requrl params data opt_header :
  keeps w0 (algod_request E method requrl params data opt_header) any.
Proof.
  unfold algod_request. repeat frame_step.
  - apply keeps_try_except; [apply keeps_urlopen|].
    intros e h Hh. destruct e; simplify_eq.
    repeat frame_step.
    apply keeps_try_except.
    + repeat frame_step. apply keeps_loads.
    + intros e h [= <-]. frame_step.
  - apply keeps_loads.
Qed.

Ltac wrapper := repeat first [frame_step | apply keeps_algod_request].

Lemma keeps_set_if_given query key arg :
  new_in w0 query → keeps w0 (set_if_given query key arg) any.
Proof. intros Hq. unfold set_if_given. wrapper. Qed.

Lemma keeps_send_raw_transaction txn request_header :
  keeps w0 (send_raw_transaction E txn request_header) any.
Proof. unfold send_raw_transaction. wrapper. Qed.

Lemma keeps_transactions_by_address address first last limit from_date to_date :
  keeps w0 (transactions_by_address E address first last limit from_date to_date) any.
Proof.
  unfold transactions_by_address.
  repeat first [frame_step | apply keeps_set_if_given; assumption
               | apply keeps_algod_request].
Qed.

(** Every operation of the client keeps the frame. *)
Lemma keeps_perform (c : call E) : keeps w0 (perform E c) any.
Proof.
  destruct c; simpl;
    try apply keeps_algod_request;
    try apply keeps_transactions_by_address;
    try apply keeps_send_raw_transaction.
  unfold pending_transactions. wrapper.
Qed.
End ClientFrame.

(** ** The wrappers that build a query *)

Section Wrappers.
Context (E : Env).

Lemma path_for_query requrl params :
  path_for E requrl params = versioned E requrl +:+ query_string params.
Proof.
  unfold path_for, query_string. destruct (dict_truthy params); [done|].
  by rewrite append_nil_r.
Qed.

(** [algod_request] with a query dict the wrapper has just built. *)
Lemma algod_request_run_query w q d method requrl data :
  allocated w (extended_header (self w)) →
  heap w !! q = None →
  let req :=
    {| req_url := algod_address (self w) +:+ path_for E requrl d;
       req_headers :=
         headers_for E requrl (algod_token (self w))
           (contents w (extended_header (self w))) [];
       req_method := method;
       req_data := data |} in
  ∃ h', heap w ⊆ h' ∧
    algod_request E method requrl (Some q) data None
      (with_heap w (<[q := d]> (heap w)))
    = (answer E (network E (sent w) req),
       {| self := self w; heap := h'; sent := sent w ++ [req] |}).
Proof.
  intros Hext Hq req.
  set (wq := with_heap w (<[q := d]> (heap w))).
  assert (Hsub : heap w ⊆ heap wq) by by apply insert_subseteq.
  destruct (algod_request_run E wq method requrl (Some q) data None)
    as (h' & Hsub' & Hrun).
  - by apply (allocated_mono w).
  - by intros l.
  - intros l [= <-]. exists d. apply lookup_insert_eq.
  - exists h'. split; [by etrans|]. rewrite Hrun.
    replace (request_for E wq method requrl (Some q) data None) with req; [done|].
    unfold req, request_for. cbn [wq with_heap self].
    rewrite (contents_mono w wq (extended_header (self w))) by done.
    f_equal. f_equal. f_equal. simpl. by rewrite lookup_insert_eq.
Qed.

Lemma set_if_given_run w h q d key arg :
  set_if_given q key arg (with_heap w (<[q := d]> h))
  = (Ret tt, with_heap w (<[q := dict_set_given d key arg]> h)).
Proof.
  destruct arg as [v|]; [|done].
  unfold set_if_given, setitem, bind, deref, assign, with_heap. cbn [heap self sent].
  rewrite lookup_insert_eq. cbn [heap self sent].
  by rewrite insert_insert_eq.
Qed.

(** The query dict [transactions_by_address] builds holds the supplied
    arguments, each under its key, in the order of the assignments. *)
Lemma supplied_query first last limit from_date to_date :
  dict_set_given
    (dict_set_given
       (dict_set_given
          (dict_set_given (dict_set_given [] "firstRound" first) "lastRound" last)
          "max" limit)
       "toDate" to_date)
    "fromDate" from_date
  = given "firstRound" first ++ given "lastRound" last ++ given "max" limit
    ++ given "toDate" to_date ++ given "fromDate" from_date.
Proof.
  by destruct first, last, limit, to_date, from_date.
Qed.

Lemma transactions_by_address_run w address first last limit from_date to_date :
  allocated w (extended_header (self w)) →
  let requrl := "/account/" +:+ address +:+ "/transactions" in
  let query :=
    given "firstRound" first ++ given "lastRound" last ++ given "max" limit
    ++ given "toDate" to_date ++ given "fromDate" from_date in
  let req :=
    {| req_url := algod_address (self w) +:+ path_for E requrl query;
       req_headers :=
         headers_for E requrl (algod_token (self w))
           (contents w (extended_header (self w))) [];
       req_method := "GET";
       req_data := None |} in
  ∃ h', heap w ⊆ h' ∧
    transactions_by_address E address first last limit from_date to_date w
    = (answer E (network E (sent w) req),
       {| self := self w; heap := h'; sent := sent w ++ [req] |}).
Proof.
  intros Hext requrl query req. unfold transactions_by_address.
  erewrite bind_run; last reflexivity.
  change {| self := self w; heap := ?h; sent := sent w |} with (with_heap w h).
  do 5 (erewrite bind_run; last apply set_if_given_run).
  rewrite supplied_query.
  apply algod_request_run_query; [done|apply new_dict_fresh].
Qed.

Lemma pending_transactions_run w max_txns :
  allocated w (extended_header (self w)) →
  let requrl := "/transactions/pending" in
  let req :=
    {| req_url := algod_address (self w) +:+ path_for E requrl [("max", VInt max_txns)];
       req_headers :=
         headers_for E requrl (algod_token (self w))
           (contents w (extended_header (self w))) [];
       req_method := "GET";
       req_data := None |} in
  ∃ h', heap w ⊆ h' ∧
    pending_transactions E max_txns w
    = (answer E (network E (sent w) req),
       {| self := self w; heap := h'; sent := sent w ++ [req] |}).
Proof.
  intros Hext requrl req. unfold pending_transactions.
  erewrite bind_run; last reflexivity.
  apply algod_request_run_query; [done|apply new_dict_fresh].
Qed.
End Wrappers.

(** ** Base64: decoding what was encoded *)

Module Base64Facts.
Import Base64 Base64Checks.

Lemma forallb_below (P : N → bool) (k : nat) :
  forallb P (below k) = true → ∀ n, (n < N.of_nat k)%N → P n = true.
Proof.
  intros H n Hn. rewrite forallb_forall in H. apply H.
  apply in_map_iff. exists (N.to_nat n). split; [lia|apply in_seq; lia].
Qed.

Lemma forallb2_below (P : N → N → bool) (k : nat) :
  forallb (fun n => forallb (P n) (below k)) (below k) = true →
  ∀ n m, (n < N.of_nat k)%N → (m < N.of_nat k)%N → P n m = true.
Proof.
  intros H n m Hn Hm.
  apply (forallb_below (P n) k); [|done].
  by apply (forallb_below (fun n => forallb (P n) (below k)) k).
Qed.

Lemma byte_bound (b : Byte.byte) : (Byte.to_N b < N.of_nat 256)%N.
Proof. pose proof (Byte.to_N_bounded b). lia. Qed.

Lemma byte_of_N_to_N (n : N) (b : Byte.byte) :
  (n mod 256 = Byte.to_N b)%N → byte_of_N n = b.
Proof. intros H. unfold byte_of_N. by rewrite H, Byte.of_to_N. Qed.

Lemma b64_char_ok n :
  (n < 64)%N →
  b64_index (b64_char n) = Some n
  ∧ Ascii.eqb (b64_char n) "=" = false
  ∧ N.ltb (N_of_ascii (b64_char n)) 128 = true.
Proof.
  intros Hn.
  assert (H : char_ok n = true).
  { apply (forallb_below char_ok 64); [vm_compute; reflexivity|done]. }
  unfold char_ok in H. apply andb_prop in H as [H H3]. apply andb_prop in H as [H1 H2].
  destruct (b64_index (b64_char n)) as [m|]; [|done].
  apply N.eqb_eq in H1 as ->. by apply negb_true_iff in H2.
Qed.

Ltac split_checks H :=
  repeat match type of H with
         | (_ && _) = true => let H' := fresh H in apply andb_prop in H as [H H']
         end;
  repeat match goal with
         | H : N.ltb _ _ = true |- _ => apply N.ltb_lt in H
         | H : N.eqb _ _ = true |- _ => apply N.eqb_eq in H
         end.

Lemma quad12 b1 b2 :
  let n1 := Byte.to_N b1 in
  let n2 := Byte.to_N b2 in
  let c2 := N.lor (N.shiftl (N.land n1 3) 4) (N.shiftr n2 4) in
  (N.shiftr n1 2 < 64)%N ∧ (c2 < 64)%N
  ∧ byte_of_N (N.lor (N.shiftl (N.shiftr n1 2) 2) (N.shiftr c2 4)) = b1
  ∧ N.land c2 15 = N.shiftr n2 4.
Proof.
  intros n1 n2 c2.
  assert (H : quad12_ok n1 n2 = true).
  { apply (forallb2_below quad12_ok 256); [vm_compute; reflexivity|apply byte_bound..]. }
  unfold quad12_ok in H. split_checks H. fold c2 in H, H0, H1.
  repeat split; try done. by apply byte_of_N_to_N.
Qed.

Lemma quad23 b2 b3 :
  let n2 := Byte.to_N b2 in
  let n3 := Byte.to_N b3 in
  let c3 := N.lor (N.shiftl (N.land n2 15) 2) (N.shiftr n3 6) in
  (c3 < 64)%N
  ∧ byte_of_N (N.lor (N.shiftl (N.shiftr n2 4) 4) (N.shiftr c3 2)) = b2
  ∧ N.land c3 3 = N.shiftr n3 6
  ∧ (N.land n3 63 < 64)%N
  ∧ byte_of_N (N.lor (N.shiftl (N.shiftr n3 6) 6) (N.land n3 63)) = b3.
Proof.
  intros n2 n3 c3.
  assert (H : quad23_ok n2 n3 = true).
  { apply (forallb2_below quad23_ok 256); [vm_compute; reflexivity|apply byte_bound..]. }
  unfold quad23_ok in H. split_checks H.
  repeat split; try done; by apply byte_of_N_to_N.
Qed.

Lemma tail1 b1 :
  let n1 := Byte.to_N b1 in
  let c2 := N.shiftl (N.land n1 3) 4 in
  (N.shiftr n1 2 < 64)%N ∧ (c2 < 64)%N
  ∧ byte_of_N (N.lor (N.shiftl (N.shiftr n1 2) 2) (N.shiftr c2 4)) = b1.
Proof.
  intros n1 c2.
  assert (H : tail1_ok n1 = true).
  { apply (forallb_below tail1_ok 256); [vm_compute; reflexivity|apply byte_bound]. }
  unfold tail1_ok in H. split_checks H.
  repeat split; try done. by apply byte_of_N_to_N.
Qed.

Lemma tail2 b2 :
  let n2 := Byte.to_N b2 in
  let c3 := N.shiftl (N.land n2 15) 2 in
  (c3 < 64)%N
  ∧ byte_of_N (N.lor (N.shiftl (N.shiftr n2 4) 4) (N.shiftr c3 2)) = b2.
Proof.
  intros n2 c3.
  assert (H : tail2_ok n2 = true).
  { apply (forallb_below tail2_ok 256); [vm_compute; reflexivity|apply byte_bound]. }
  unfold tail2_ok in H. split_checks H.
  repeat split; try done. by apply byte_of_N_to_N.
Qed.

(** One step of the decoder on a character of the alphabet. *)
Lemma a2b_base64_char n s quad_pos leftchar pads :
  (n < 64)%N →
  a2b_base64 (String (b64_char n) s) quad_pos leftchar pads
  = match quad_pos with
    | 0 => a2b_base64 s 1 n 0
    | 1 =>
        cons (byte_of_N (N.lor (N.shiftl leftchar 2) (N.shiftr n 4)))
          <$> a2b_base64 s 2 (N.land n 15) 0
    | 2 =>
        cons (byte_of_N (N.lor (N.shiftl leftchar 4) (N.shiftr n 2)))
          <$> a2b_base64 s 3 (N.land n 3) 0
    | _ =>
        cons (byte_of_N (N.lor (N.shiftl leftchar 6) n))
          <$> a2b_base64 s 0 0%N 0
    end.
Proof.
  intros Hn. destruct (b64_char_ok n Hn) as (Hi & Hp & _).
  cbn [a2b_base64]. by rewrite Hp, Hi.
Qed.

(** A list is empty, one element, two elements, or three elements and a
    list. *)
Lemma list_ind3 {A : Type} (P : list A → Prop) :
  P [] → (∀ a, P [a]) → (∀ a b, P [a; b]) →
  (∀ a b c l, P l → P (a :: b :: c :: l)) →
  ∀ l, P l.
Proof.
  intros H0 H1 H2 H3 l.
  cut (P l ∧ (∀ a, P (a :: l)) ∧ (∀ a b, P (a :: b :: l))); [tauto|].
  induction l as [|x l (IH0 & IH1 & IH2)]; [by auto|].
  split; [apply IH1|]. split; [intros a; apply IH2|]. intros a b. by apply H3.
Qed.

(** Decoding an encoding gives the bytes back. *)
Lemma a2b_base64_b64encode bs : a2b_base64 (b64encode bs) 0 0%N 0 = Some bs.
Proof.
  induction bs as [|b1|b1 b2|b1 b2 b3 rest IH] using list_ind3.
  - reflexivity.
  - cbn [b64encode]. destruct (tail1 b1) as (H1 & H2 & Hb1).
    rewrite !a2b_base64_char by done. by rewrite Hb1.
  - cbn [b64encode].
    destruct (quad12 b1 b2) as (H1 & H2 & Hb1 & Hl).
    destruct (tail2 b2) as (H3 & Hb2).
    rewrite !a2b_base64_char by done. rewrite Hb1, Hl, Hb2. reflexivity.
  - cbn [b64encode].
    destruct (quad12 b1 b2) as (H1 & H2 & Hb1 & Hl).
    destruct (quad23 b2 b3) as (H3 & Hb2 & Hl' & H4 & Hb3).
    rewrite !a2b_base64_char by done.
    rewrite Hb1, Hl, Hb2, Hl', Hb3, IH. reflexivity.
Qed.

Lemma is_ascii_b64encode bs : is_ascii (b64encode bs) = true.
Proof.
  induction bs as [|b1|b1 b2|b1 b2 b3 rest IH] using list_ind3.
  - reflexivity.
  - cbn [b64encode is_ascii]. destruct (tail1 b1) as (H1 & H2 & _).
    destruct (b64_char_ok _ H1) as (_ & _ & ->).
    by destruct (b64_char_ok _ H2) as (_ & _ & ->).
  - cbn [b64encode is_ascii].
    destruct (quad12 b1 b2) as (H1 & H2 & _). destruct (tail2 b2) as (H3 & _).
    destruct (b64_char_ok _ H1) as (_ & _ & ->).
    destruct (b64_char_ok _ H2) as (_ & _ & ->).
    by destruct (b64_char_ok _ H3) as (_ & _ & ->).
  - cbn [b64encode is_ascii].
    destruct (quad12 b1 b2) as (H1 & H2 & _).
    destruct (quad23 b2 b3) as (H3 & _ & _ & H4 & _).
    destruct (b64_char_ok _ H1) as (_ & _ & ->).
    destruct (b64_char_ok _ H2) as (_ & _ & ->).
    destruct (b64_char_ok _ H3) as (_ & _ & ->).
    destruct (b64_char_ok _ H4) as (_ & _ & ->).
    by rewrite IH.
Qed.

Lemma b64decode_b64encode bs : Base64.b64decode (b64encode bs) = inr bs.
Proof.
  unfold Base64.b64decode. by rewrite is_ascii_b64encode, a2b_base64_b64encode.
Qed.
End Base64Facts.

(** * The claims of the specification *)

Section HeaderClaims.
Context (E : Env).

(** C2. A request for a path outside the no-auth list carries the auth
    header with the configured token; a request for a path in the list, when
    neither the configured nor the per-call extra headers name the auth
    header, carries no auth header. *)
Theorem auth_header_by_path w method requrl params data opt_header :
  allocated w (extended_header (self w)) →
  allocated w opt_header →
  allocated w params →
  ∃ req,
    sent (algod_request E method requrl params data opt_header w).2 = sent w ++ [req]
    ∧ (requrl ∉ no_auth E →
       dict_get (req_headers req) (algod_auth_header E)
       = Some (VStr (algod_token (self w))))
    ∧ (requrl ∈ no_auth E →
       dict_get (contents w (extended_header (self w))) (algod_auth_header E) = None →
       dict_get (contents w opt_header) (algod_auth_header E) = None →
       dict_get (req_headers req) (algod_auth_header E) = None).
Proof.
  intros Hext Hopt Hpar.
  destruct (algod_request_run E w method requrl params data opt_header)
    as (h' & _ & Hrun); [done..|].
  eexists. rewrite Hrun. split; [reflexivity|].
  cbn [request_for req_headers]. unfold headers_for. split.
  - intros Hout. rewrite bool_decide_eq_true_2 by done. apply dict_get_set_eq.
  - intros Hin Hx Ho. rewrite bool_decide_eq_false_2 by (by intros ?).
    by rewrite !dict_get_update_None.
Qed.

(** C10. Outside the no-auth list the auth entry is set last: whatever the
    configured and per-call extra headers hold under the auth header's name,
    the header map handed over binds it to the configured token. *)
Theorem auth_header_set_last w method requrl params data opt_header :
  allocated w (extended_header (self w)) →
  allocated w opt_header →
  allocated w params →
  requrl ∉ no_auth E →
  ∃ req,
    sent (algod_request E method requrl params data opt_header w).2 = sent w ++ [req]
    ∧ req_headers req
      = dict_set
          (dict_update (dict_update [] (contents w (extended_header (self w))))
             (contents w opt_header))
          (algod_auth_header E) (VStr (algod_token (self w)))
    ∧ dict_get (req_headers req) (algod_auth_header E)
      = Some (VStr (algod_token (self w))).
Proof.
  intros Hext Hopt Hpar Hout.
  destruct (algod_request_run E w method requrl params data opt_header)
    as (h' & _ & Hrun); [done..|].
  eexists. rewrite Hrun. split; [reflexivity|].
  cbn [request_for req_headers]. unfold headers_for.
  rewrite bool_decide_eq_true_2 by done. split; [done|apply dict_get_set_eq].
Qed.

(** C3. For a path outside the unversioned list the URL is the address, the
    version prefix once, the path as the wrapper gave it, and the query; for
    a path in the list the prefix is left out. *)
Theorem version_prefix_by_path w method requrl params data opt_header :
  allocated w (extended_header (self w)) →
  allocated w opt_header →
  allocated w params →
  ∃ req,
    sent (algod_request E method requrl params data opt_header w).2 = sent w ++ [req]
    ∧ (requrl ∉ unversioned_paths E →
       req_url req
       = algod_address (self w) +:+ (api_version_path_prefix E +:+ requrl)
         +:+ query_string (contents w params))
    ∧ (requrl ∈ unversioned_paths E →
       req_url req
       = algod_address (self w) +:+ requrl +:+ query_string (contents w params)).
Proof.
  intros Hext Hopt Hpar.
  destruct (algod_request_run E w method requrl params data opt_header)
    as (h' & _ & Hrun); [done..|].
  eexists. rewrite Hrun. split; [reflexivity|].
  cbn [request_for req_url]. rewrite path_for_query. unfold versioned. split.
  - intros Hout. by rewrite bool_decide_eq_true_2.
  - intros Hin. by rewrite bool_decide_eq_false_2 by (by intros ?).
Qed.
End HeaderClaims.

Lemma allocated_None w : allocated w None.
Proof. by intros l. Qed.

Lemma start_extra : allocated Localnet.start (Some Localnet.extra).
Proof. intros l [= <-]. by eexists. Defined.

Lemma start_forged : allocated Localnet.start (Some Localnet.forged).
Proof. intros l [= <-]. by eexists. Defined.

Lemma auth_header_by_path_witness :
  (∃ req,
     sent (algod_request Localnet.env "GET" "/status" None None None Localnet.start).2
     = sent Localnet.start ++ [req]
     ∧ dict_get (req_headers req) "X-Algo-API-Token" = Some (VStr "secret"))
  ∧ (∃ req,
       sent (algod_request Localnet.env "GET" "/health" None None None Localnet.start).2
       = sent Localnet.start ++ [req]
       ∧ dict_get (req_headers req) "X-Algo-API-Token" = None).
Proof.
  split.
  - destruct (auth_header_by_path Localnet.env Localnet.start "GET" "/status"
                None None None) as (req & Hsent & Hout & _);
      [apply start_extra|apply allocated_None..|].
    exists req. split; [exact Hsent|]. apply Hout.
    apply (bool_decide_eq_false_1 _); reflexivity.
  - destruct (auth_header_by_path Localnet.env Localnet.start "GET" "/health"
                None None None) as (req & Hsent & _ & Hin);
      [apply start_extra|apply allocated_None..|].
    exists req. split; [exact Hsent|]. apply Hin; [|reflexivity..].
    apply (bool_decide_eq_true_1 _); reflexivity.
Defined.

Lemma auth_header_set_last_witness :
  ∃ req,
    sent (algod_request Localnet.env "POST" "/transactions" None (Some [Byte.x00])
            (Some Localnet.forged) Localnet.start).2
    = sent Localnet.start ++ [req]
    ∧ req_headers req
      = dict_set
          (dict_update (dict_update [] (contents Localnet.start (Some Localnet.extra)))
             [("X-Algo-API-Token", VStr "forged")])
          "X-Algo-API-Token" (VStr "secret")
    ∧ dict_get (req_headers req) "X-Algo-API-Token" = Some (VStr "secret").
Proof.
  apply (auth_header_set_last Localnet.env Localnet.start "POST" "/transactions" None
           (Some [Byte.x00]) (Some Localnet.forged));
    [apply start_extra|apply start_forged|apply allocated_None|].
  apply (bool_decide_eq_false_1 _); reflexivity.
Defined.

Lemma version_prefix_by_path_witness :
  (∃ req,
     sent (algod_request Localnet.env "GET" "/status" None None None Localnet.start).2
     = sent Localnet.start ++ [req]
     ∧ req_url req = "http://localhost:8080/v1/status")
  ∧ (∃ req,
       sent (algod_request Localnet.env "GET" "/versions" None None None Localnet.start).2
       = sent Localnet.start ++ [req]
       ∧ req_url req = "http://localhost:8080/versions").
Proof.
  split.
  - destruct (version_prefix_by_path Localnet.env Localnet.start "GET" "/status"
                None None None) as (req & Hsent & Hout & _);
      [apply start_extra|apply allocated_None..|].
    exists req. split; [exact Hsent|]. apply Hout.
    apply (bool_decide_eq_false_1 _); reflexivity.
  - destruct (version_prefix_by_path Localnet.env Localnet.start "GET" "/versions"
                None None None) as (req & Hsent & _ & Hin);
      [apply start_extra|apply allocated_None..|].
    exists req. split; [exact Hsent|]. apply Hin.
    apply (bool_decide_eq_true_1 _); reflexivity.
Defined.

Section QueryClaims.
Context (E : Env).

Lemma elem_of_given key arg k v :
  (k, v) ∈ given key arg ↔ k = key ∧ arg = Some v.
Proof.
  destruct arg as [v'|]; simpl.
  - rewrite list_elem_of_singleton. split; [by intros [= -> ->]|by intros [-> [= ->]]].
  - rewrite elem_of_nil. split; [done|by intros [_ ?]].
Qed.

(** C4. [transactions_by_address] sends as query exactly the arguments the
    caller supplied, under [firstRound], [lastRound], [max], [fromDate] and
    [toDate]; with only [first] the query is [firstRound=<v>] alone, and with
    no optional argument the URL has no query string. *)
Theorem transactions_by_address_query w address first last limit from_date to_date :
  allocated w (extended_header (self w)) →
  let query :=
    given "firstRound" first ++ given "lastRound" last ++ given "max" limit
    ++ given "toDate" to_date ++ given "fromDate" from_date in
  let base :=
    algod_address (self w)
    +:+ versioned E ("/account/" +:+ address +:+ "/transactions") in
  ∃ req,
    sent (transactions_by_address E address first last limit from_date to_date w).2
    = sent w ++ [req]
    ∧ req_url req = base +:+ query_string query
    ∧ (∀ k v, (k, v) ∈ query ↔
         (k = "firstRound" ∧ first = Some v) ∨ (k = "lastRound" ∧ last = Some v)
         ∨ (k = "max" ∧ limit = Some v) ∨ (k = "fromDate" ∧ from_date = Some v)
         ∨ (k = "toDate" ∧ to_date = Some v))
    ∧ (∀ v, first = Some v → last = None → limit = None → from_date = None →
         to_date = None →
         req_url req
         = base +:+ "?firstRound=" +:+ UrlParse.quote_plus (PyStr.str v))
    ∧ (first = None → last = None → limit = None → from_date = None →
       to_date = None → req_url req = base).
Proof.
  intros Hext query base.
  destruct (transactions_by_address_run E w address first last limit from_date to_date)
    as (h' & _ & Hrun); [done|].
  eexists. rewrite Hrun. split; [reflexivity|].
  cbn [req_url snd]. rewrite path_for_query, <- append_assoc. fold base query.
  split; [done|]. split; [|split].
  - intros k v. unfold query. rewrite !elem_of_app, !elem_of_given. tauto.
  - intros v -> -> -> -> ->. reflexivity.
  - intros -> -> -> -> ->. by rewrite append_nil_r.
Qed.

(** C5. [pending_transactions(0)] puts [max=0] in the URL, which is not the
    URL of the same request made without the parameter. *)
Theorem pending_transactions_zero w :
  allocated w (extended_header (self w)) →
  let base := algod_address (self w) +:+ versioned E "/transactions/pending" in
  ∃ req omitted,
    sent (pending_transactions E 0 w).2 = sent w ++ [req]
    ∧ req_url req = base +:+ "?max=0"
    ∧ sent (algod_request E "GET" "/transactions/pending" None None None w).2
      = sent w ++ [omitted]
    ∧ req_url omitted = base
    ∧ req_url req ≠ req_url omitted.
Proof.
  intros Hext base.
  destruct (pending_transactions_run E w 0) as (h' & _ & Hrun); [done|].
  destruct (algod_request_run E w "GET" "/transactions/pending" None None None)
    as (h'' & _ & Hrun'); [done|by intros l..|].
  assert (Hurl : ∀ p, algod_address (self w) +:+ path_for E "/transactions/pending" p
                      = base +:+ query_string p).
  { intros p. by rewrite path_for_query, <- append_assoc. }
  eexists _, _. rewrite Hrun, Hrun'. cbn [snd sent].
  split; [reflexivity|]. split; [apply Hurl|]. split; [reflexivity|].
  cbn [request_for req_url contents]. rewrite !Hurl.
  change (query_string []) with "".
  change (query_string [("max", VInt 0)]) with "?max=0".
  rewrite append_nil_r. split; [done|].
  intros Heq. by apply append_eq_l in Heq.
Qed.
End QueryClaims.

Lemma transactions_by_address_query_witness :
  (∃ req,
     sent (transactions_by_address Localnet.env "ADDR" (Some (VInt 12)) None None None
             None Localnet.start).2
     = sent Localnet.start ++ [req]
     ∧ req_url req = "http://localhost:8080/v1/account/ADDR/transactions?firstRound=12")
  ∧ (∃ req,
       sent (transactions_by_address Localnet.env "ADDR" None None None None None
               Localnet.start).2
       = sent Localnet.start ++ [req]
       ∧ req_url req = "http://localhost:8080/v1/account/ADDR/transactions").
Proof.
  split.
  - destruct (transactions_by_address_query Localnet.env Localnet.start "ADDR"
                (Some (VInt 12)) None None None None start_extra)
      as (req & Hsent & _ & _ & Hfirst & _).
    exists req. split; [exact Hsent|].
    exact (Hfirst (VInt 12) eq_refl eq_refl eq_refl eq_refl eq_refl).
  - destruct (transactions_by_address_query Localnet.env Localnet.start "ADDR"
                None None None None None start_extra)
      as (req & Hsent & _ & _ & _ & Hnone).
    exists req. split; [exact Hsent|].
    exact (Hnone eq_refl eq_refl eq_refl eq_refl eq_refl).
Defined.

Lemma pending_transactions_zero_witness :
  ∃ req omitted,
    sent (pending_transactions Localnet.env 0 Localnet.start).2
    = sent Localnet.start ++ [req]
    ∧ req_url req = "http://localhost:8080/v1/transactions/pending?max=0"
    ∧ sent (algod_request Localnet.env "GET" "/transactions/pending" None None None
              Localnet.start).2
      = sent Localnet.start ++ [omitted]
    ∧ req_url omitted = "http://localhost:8080/v1/transactions/pending"
    ∧ req_url req ≠ req_url omitted.
Proof.
  exact (pending_transactions_zero Localnet.env Localnet.start start_extra).
Defined.

Section AnswerClaims.
Context (E : Env).

(** The outcome of [send_raw_transaction] once the text decodes. *)
Lemma send_raw_transaction_run w txn raw request_header :
  allocated w (extended_header (self w)) →
  allocated w request_header →
  Base64.b64decode txn = inr raw →
  let req := request_for E w "POST" "/transactions" None (Some raw) request_header in
  ∃ h', heap w ⊆ h' ∧
    send_raw_transaction E txn request_header w
    = let w' := {| self := self w; heap := h'; sent := sent w ++ [req] |} in
      match answer E (network E (sent w) req) with
      | Ret resp => getitem resp "txId" w'
      | Raise e => (Raise e, w')
      end.
Proof.
  intros Hext Hopt Hraw req.
  destruct (algod_request_run E w "POST" "/transactions" None (Some raw) request_header)
    as (h' & Hsub & Hrun); [done|done|by intros l|].
  exists h'. split; [done|].
  unfold send_raw_transaction, b64decode. rewrite Hraw.
  erewrite bind_run; last reflexivity.
  unfold bind. rewrite Hrun. fold req.
  by destruct (answer E (network E (sent w) req)).
Qed.

Lemma getitem_sent v k w : sent (getitem v k w).2 = sent w.
Proof.
  destruct v; try done. simpl. by destruct (dict_get fields k).
Qed.

(** C6. [send_raw_transaction] posts the base64-decoding of its input to
    [/transactions] and, when the node answers with a JSON object, returns
    the value of its [txId] field; [AA==] decodes to the single byte 0. *)
Theorem send_raw_transaction_posts_decoded w txn raw request_header :
  allocated w (extended_header (self w)) →
  allocated w request_header →
  Base64.b64decode txn = inr raw →
  let req := request_for E w "POST" "/transactions" None (Some raw) request_header in
  sent (send_raw_transaction E txn request_header w).2 = sent w ++ [req]
  ∧ req_method req = "POST"
  ∧ req_data req = Some raw
  ∧ req_url req = algod_address (self w) +:+ versioned E "/transactions"
  ∧ (∀ body s fields txid,
       network E (sent w) req = Responded body →
       PyStr.decode_utf8 body = Some s →
       json_loads E s = Some (JDict fields) →
       dict_get fields "txId" = Some txid →
       (send_raw_transaction E txn request_header w).1 = Ret txid)
  ∧ Base64.b64decode "AA==" = inr [Byte.x00].
Proof.
  intros Hext Hopt Hraw req.
  destruct (send_raw_transaction_run w txn raw request_header)
    as (h' & _ & Hrun); [done..|].
  rewrite Hrun. cbv zeta. fold req. split; [|split; [|split; [|split; [|split]]]].
  - destruct (answer E _); [|done]. by rewrite getitem_sent.
  - done.
  - done.
  - done.
  - intros body s fields txid Hnet Hs Hv Htx.
    rewrite Hnet. cbn [answer]. rewrite Hs, Hv.
    cbn [getitem]. by rewrite Htx.
  - reflexivity.
Qed.

(** C8. When the node answers a request with success and a body that is not
    JSON, the call raises a decoding error, which is neither the transport
    error nor the node-API error. *)
Theorem success_with_bad_json_raises w method requrl params data opt_header body :
  allocated w (extended_header (self w)) →
  allocated w opt_header →
  allocated w params →
  network E (sent w) (request_for E w method requrl params data opt_header)
  = Responded body →
  match PyStr.decode_utf8 body with
  | Some s => json_loads E s = None
  | None => True
  end →
  ∃ e,
    sent (algod_request E method requrl params data opt_header w).2
    = sent w ++ [request_for E w method requrl params data opt_header]
    ∧ (algod_request E method requrl params data opt_header w).1 = Raise e
    ∧ (e = JSONDecodeError ∨ e = UnicodeDecodeError)
    ∧ (∀ reason, e ≠ URLError reason)
    ∧ (∀ code b, e ≠ HTTPError code b)
    ∧ (∀ arg, e ≠ AlgodHTTPError arg).
Proof.
  intros Hext Hopt Hpar Hnet Hbad.
  destruct (algod_request_run E w method requrl params data opt_header)
    as (h' & _ & Hrun); [done..|].
  rewrite Hrun, Hnet. cbn [answer fst snd sent].
  destruct (PyStr.decode_utf8 body) as [s|].
  - rewrite Hbad. exists JSONDecodeError. repeat split; auto; done.
  - exists UnicodeDecodeError. repeat split; auto; done.
Qed.

(** What an HTTP error answer raises: the body text, whatever it parses
    to. *)
Lemma http_error_raises_body w method requrl params data opt_header code body e :
  allocated w (extended_header (self w)) →
  allocated w opt_header →
  allocated w params →
  network E (sent w) (request_for E w method requrl params data opt_header)
  = HttpFailed code body →
  PyStr.decode_utf8 body = Some e →
  (algod_request E method requrl params data opt_header w).1
  = Raise (AlgodHTTPError (JStr e)).
Proof.
  intros Hext Hopt Hpar Hnet Hbody.
  destruct (algod_request_run E w method requrl params data opt_header)
    as (h' & _ & Hrun); [done..|].
  rewrite Hrun, Hnet. cbn [answer fst]. by rewrite Hbody.
Qed.
End AnswerClaims.

Lemma send_raw_transaction_posts_decoded_witness :
  let req :=
    {| req_url := "http://localhost:8080/v1/transactions";
       req_headers := [("X-Extra", VStr "1"); ("X-Algo-API-Token", VStr "secret")];
       req_method := "POST";
       req_data := Some [Byte.x00] |} in
  sent (send_raw_transaction Localnet.env "AA==" None Localnet.start).2 = [req]
  ∧ (send_raw_transaction Localnet.env "AA==" None Localnet.start).1 = Ret (JStr "TX1").
Proof.
  destruct (send_raw_transaction_posts_decoded Localnet.env Localnet.start "AA=="
              [Byte.x00] None start_extra (allocated_None _) eq_refl)
    as (Hsent & _ & _ & _ & Hret & _).
  split; [exact Hsent|].
  exact (Hret (Localnet.utf8 Localnet.txid_body) Localnet.txid_body
           [("txId", JStr "TX1")] (JStr "TX1") eq_refl eq_refl eq_refl eq_refl).
Defined.

Lemma success_with_bad_json_raises_witness :
  ∃ e,
    sent (algod_request Localnet.env "GET" "/ledger/supply" None None None
            Localnet.start).2
    = [{| req_url := "http://localhost:8080/v1/ledger/supply";
          req_headers := [("X-Extra", VStr "1"); ("X-Algo-API-Token", VStr "secret")];
          req_method := "GET";
          req_data := None |}]
    ∧ (algod_request Localnet.env "GET" "/ledger/supply" None None None Localnet.start).1
      = Raise e
    ∧ (e = JSONDecodeError ∨ e = UnicodeDecodeError)
    ∧ (∀ reason, e ≠ URLError reason)
    ∧ (∀ code b, e ≠ HTTPError code b)
    ∧ (∀ arg, e ≠ AlgodHTTPError arg).
Proof.
  apply (success_with_bad_json_raises Localnet.env Localnet.start "GET" "/ledger/supply"
           None None None (Localnet.utf8 "<html>gateway</html>")
           start_extra (allocated_None _) (allocated_None _)).
  - reflexivity.
  - vm_compute. reflexivity.
Defined.

(** C1. The node answers [block_info(100)] with status 400 and the body
    [{"message":"bad request"}], which [json.loads] reads as an object whose
    [message] is [bad request]; the error raised carries the whole body, not
    that message.  An error body that is not JSON, [oops], is carried as it
    is. *)
Theorem http_error_message_not_extracted :
  Localnet.node [] (request_for Localnet.env Localnet.start "GET" "/block/100"
                      None None None)
  = HttpFailed 400 (Localnet.utf8 Localnet.bad_request_body)
  ∧ json_loads Localnet.env Localnet.bad_request_body
    = Some (JDict [("message", JStr "bad request")])
  ∧ (block_info Localnet.env 100 Localnet.start).1
    = Raise (AlgodHTTPError (JStr Localnet.bad_request_body))
  ∧ (block_info Localnet.env 100 Localnet.start).1
    ≠ Raise (AlgodHTTPError (JStr "bad request"))
  ∧ (block_info Localnet.env 101 Localnet.start).1
    = Raise (AlgodHTTPError (JStr "oops")).
Proof.
  repeat split; try reflexivity. vm_compute. discriminate.
Qed.

(** C9. Whatever the call and however it ends, the client's attributes are
    the ones it had, and every dict that existed, the configured extra
    headers among them, holds what it held. *)
Theorem client_unchanged (E : Env) (c : call E) (w : world) :
  let w' := (perform E c w).2 in
  algod_token (self w') = algod_token (self w)
  ∧ algod_address (self w') = algod_address (self w)
  ∧ extended_header (self w') = extended_header (self w)
  ∧ (∀ l d, heap w !! l = Some d → heap w' !! l = Some d).
Proof.
  destruct (keeps_perform E w c w (framed_refl w)) as [[Hself Hheap] _].
  cbv zeta. rewrite Hself. repeat split.
  intros l d Hl. by eapply lookup_weaken.
Qed.


(** C7. [send_transaction] is [send_raw_transaction] on the encoded
    transaction, and, the encoding being the base64 text of the canonical
    bytes, it posts those bytes to [/transactions] and returns the [txId] of
    the answer, as posting them directly does. *)
Theorem send_transaction_as_raw (E : Env) (canonical : SignedTransaction E → bytes)
    (txn : SignedTransaction E) (request_header : option loc) (w : world) :
  msgpack_encode E txn = Base64.b64encode (canonical txn) →
  send_transaction E txn request_header w
  = send_raw_transaction E (Base64.b64encode (canonical txn)) request_header w
  ∧ send_transaction E txn request_header w
    = post_transaction E (canonical txn) request_header w.
Proof.
  intros Henc. unfold send_transaction. rewrite Henc. split; [done|].
  unfold send_raw_transaction, post_transaction, b64decode.
  by rewrite Base64Facts.b64decode_b64encode.
Qed.

Lemma send_transaction_as_raw_witness :
  send_transaction Localnet.env [Byte.x01; Byte.x02] None Localnet.start
  = send_raw_transaction Localnet.env "AQI=" None Localnet.start
  ∧ send_transaction Localnet.env [Byte.x01; Byte.x02] None Localnet.start
    = post_transaction Localnet.env [Byte.x01; Byte.x02] None Localnet.start.
Proof.
  exact (send_transaction_as_raw Localnet.env (fun b => b) [Byte.x01; Byte.x02] None
           Localnet.start eq_refl).
Defined.

(** * Further properties of the client *)

(** ** At most one request per call *)

Section Sending.
Context (E : Env).

Lemma quiet_ret {A} (a : A) : quiet (ret a).
Proof. by intros w. Qed.

Lemma quiet_raise {A} (e : exn) : quiet (@raise A e).
Proof. by intros w. Qed.

Lemma quiet_bind {A B} (c : M A) (f : A → M B) :
  quiet c → (∀ a, quiet (f a)) → quiet (bind c f).
Proof.
  intros Hc Hf w. unfold bind. specialize (Hc w).
  destruct (c w) as [[a|e] w']; simpl in *; [|done].
  by rewrite Hf.
Qed.

Lemma quiet_try_except {A} (c : M A) (handler : exn → option (M A)) :
  quiet c → (∀ e h, handler e = Some h → quiet h) → quiet (try_except c handler).
Proof.
  intros Hc Hh w. unfold try_except. specialize (Hc w).
  destruct (c w) as [[a|e] w']; simpl in *; [done|].
  destruct (handler e) as [h|] eqn:He; [|done].
  by rewrite (Hh e h He).
Qed.

Lemma quiet_self_attr {A} (attr : AlgodClient → A) : quiet (self_attr attr).
Proof. by intros w. Qed.

Lemma quiet_new_dict d : quiet (new_dict d).
Proof. by intros w. Qed.

Lemma quiet_deref l : quiet (deref l).
Proof. intros w. unfold deref. by destruct (heap w !! l). Qed.

Lemma quiet_assign l d : quiet (assign l d).
Proof. by intros w. Qed.

Lemma quiet_getitem v k : quiet (getitem v k).
Proof. intros w. apply getitem_sent. Qed.

Lemma quiet_decode b : quiet (decode b).
Proof. intros w. unfold decode. by destruct (PyStr.decode_utf8 b). Qed.

Lemma quiet_b64decode s : quiet (b64decode s).
Proof. intros w. unfold b64decode. by destruct (Base64.b64decode s) as [[]|]. Qed.

Lemma quiet_loads s : quiet (loads E s).
Proof. intros w. unfold loads. by destruct (json_loads E s). Qed.

Ltac quiet_step :=
  match goal with
  | |- quiet (bind _ _) => apply quiet_bind; [|intros ?]
  | |- quiet (ret _) => apply quiet_ret
  | |- quiet (raise _) => apply quiet_raise
  | |- quiet (new_dict _) => apply quiet_new_dict
  | |- quiet (self_attr _) => apply quiet_self_attr
  | |- quiet (deref _) => apply quiet_deref
  | |- quiet (assign _ _) => apply quiet_assign
  | |- quiet (getitem _ _) => apply quiet_getitem
  | |- quiet (decode _) => apply quiet_decode
  | |- quiet (b64decode _) => apply quiet_b64decode
  | |- quiet (loads _ _) => apply quiet_loads
  | |- quiet (if ?b then _ else _) => destruct b
  | |- quiet (match ?x with _ => _ end) => destruct x
  end.

Lemma quiet_update l other : quiet (update l other).
Proof. unfold update. repeat quiet_step. Qed.

Lemma quiet_setitem l k v : quiet (setitem l k v).
Proof. unfold setitem. repeat quiet_step. Qed.

Lemma quiet_truthy x : quiet (truthy x).
Proof. unfold truthy. repeat quiet_step. Qed.

Lemma quiet_update_if_truthy l x : quiet (update_if_truthy l x).
Proof.
  unfold update_if_truthy. apply quiet_bind; [apply quiet_truthy|]. intros t.
  destruct x; [destruct t|]; first [apply quiet_update|apply quiet_ret].
Qed.

Lemma quiet_set_if_given query key arg : quiet (set_if_given query key arg).
Proof. destruct arg; [apply quiet_setitem|apply quiet_ret]. Qed.

Lemma quiet_then {A B} (c : M A) (f : A → M B) :
  quiet c → (∀ a, sends_at_most_one (f a)) → sends_at_most_one (bind c f).
Proof.
  intros Hc Hf w. unfold bind. specialize (Hc w).
  destruct (c w) as [[a|e] w']; simpl in *; [|by left].
  rewrite <- Hc. apply Hf.
Qed.

Lemma then_quiet {A B} (c : M A) (f : A → M B) :
  sends_at_most_one c → (∀ a, quiet (f a)) → sends_at_most_one (bind c f).
Proof.
  intros Hc Hf w. unfold bind. specialize (Hc w).
  destruct (c w) as [[a|e] w']; simpl in *; [|done].
  destruct Hc as [Hc|[req Hc]]; [left|right; exists req]; by rewrite Hf.
Qed.

Lemma try_then_quiet {A} (c : M A) (handler : exn → option (M A)) :
  sends_at_most_one c → (∀ e h, handler e = Some h → quiet h) →
  sends_at_most_one (try_except c handler).
Proof.
  intros Hc Hh w. unfold try_except. specialize (Hc w).
  destruct (c w) as [[a|e] w']; simpl in *; [done|].
  destruct (handler e) as [h|] eqn:He; [|done].
  destruct Hc as [Hc|[req Hc]]; [left|right; exists req]; by rewrite (Hh e h He).
Qed.

Lemma urlopen_sends_one req : sends_at_most_one (urlopen E req).
Proof.
  intros w. right. exists req. unfold urlopen.
  by destruct (network E (sent w) req).
Qed.

Lemma algod_request_sends_at_most_one method requrl params data opt_header :
  sends_at_most_one (algod_request E method requrl params data opt_header).
Proof.
  unfold algod_request.
  apply quiet_then; [apply quiet_new_dict|]. intros header.
  apply quiet_then; [apply quiet_self_attr|]. intros ext.
  apply quiet_then; [apply quiet_update_if_truthy|]. intros _.
  apply quiet_then; [apply quiet_update_if_truthy|]. intros _.
  apply quiet_then.
  { destruct (bool_decide _); [|apply quiet_ret].
    repeat quiet_step. apply quiet_update. }
  intros _.
  apply quiet_then; [apply quiet_truthy|]. intros t.
  apply quiet_then; [destruct params; [destruct t|]; repeat quiet_step|]. intros path.
  apply quiet_then; [apply quiet_self_attr|]. intros address.
  apply quiet_then; [apply quiet_deref|]. intros h.
  apply then_quiet; [|intros resp; repeat quiet_step].
  apply try_then_quiet; [apply urlopen_sends_one|].
  intros e handler Hh. destruct e; simplify_eq.
  apply quiet_bind; [apply quiet_decode|]. intros text.
  apply quiet_try_except; [repeat quiet_step|].
  intros e' h' [= <-]. apply quiet_raise.
Qed.

(** X1. Whatever the call, its arguments and the answers of the node, the
    requests made before stay in the log and at most one is added: no call
    asks the node twice. *)
Theorem call_sends_at_most_one (c : call E) : sends_at_most_one (perform E c).
Proof.
  destruct c; simpl; try apply algod_request_sends_at_most_one.
  - apply quiet_then; [apply quiet_new_dict|]. intros query.
    apply algod_request_sends_at_most_one.
  - unfold transactions_by_address.
    apply quiet_then; [apply quiet_new_dict|]. intros query.
    do 5 (apply quiet_then; [apply quiet_set_if_given|]; intros _).
    apply algod_request_sends_at_most_one.
  - apply quiet_then; [apply quiet_b64decode|]. intros raw.
    apply then_quiet; [apply algod_request_sends_at_most_one|].
    intros resp. apply quiet_getitem.
  - apply quiet_then; [apply quiet_b64decode|]. intros raw.
    apply then_quiet; [apply algod_request_sends_at_most_one|].
    intros resp. apply quiet_getitem.
Qed.
End Sending.

(** ** Errors *)

Section Errors.
Context (E : Env).

(** X2. A text that [base64.b64decode] rejects makes [send_raw_transaction]
    raise at once: nothing is sent and nothing in the world changes. *)
Theorem send_raw_transaction_rejects_bad_base64 w txn request_header failure :
  Base64.b64decode txn = inl failure →
  send_raw_transaction E txn request_header w
  = (Raise match failure with
           | Base64.NotAscii => ValueError
           | Base64.BadPadding => BinasciiError
           end, w).
Proof.
  intros Hbad. unfold send_raw_transaction, b64decode, bind. rewrite Hbad.
  by destruct failure.
Qed.

(** X3. When the node cannot be reached, [algod_request] raises the
    [URLError] of [urlopen] as it is, after the one request. *)
Theorem transport_failure_propagates w method requrl params data opt_header reason :
  allocated w (extended_header (self w)) →
  allocated w opt_header →
  allocated w params →
  network E (sent w) (request_for E w method requrl params data opt_header)
  = TransportFailed reason →
  (algod_request E method requrl params data opt_header w).1 = Raise (URLError reason)
  ∧ sent (algod_request E method requrl params data opt_header w).2
    = sent w ++ [request_for E w method requrl params data opt_header].
Proof.
  intros Hext Hopt Hpar Hnet.
  destruct (algod_request_run E w method requrl params data opt_header)
    as (h' & _ & Hrun); [done..|].
  by rewrite Hrun, Hnet.
Qed.

(** X4. On an HTTP error status [algod_request] raises [AlgodHTTPError]
    with the text of the body, whatever the status code and whatever the
    body parses to; a body that is not UTF-8 raises [UnicodeDecodeError]
    instead. *)
Theorem http_error_outcome w method requrl params data opt_header code body :
  allocated w (extended_header (self w)) →
  allocated w opt_header →
  allocated w params →
  network E (sent w) (request_for E w method requrl params data opt_header)
  = HttpFailed code body →
  (algod_request E method requrl params data opt_header w).1
  = match PyStr.decode_utf8 body with
    | Some text => Raise (AlgodHTTPError (JStr text))
    | None => Raise UnicodeDecodeError
    end.
Proof.
  intros Hext Hopt Hpar Hnet.
  destruct (algod_request_run E w method requrl params data opt_header)
    as (h' & _ & Hrun); [done..|].
  by rewrite Hrun, Hnet.
Qed.

(** X5. [send_raw_transaction] has sent the transaction when it looks for
    [txId]: an answer that is a JSON object without that key raises
    [KeyError], an answer that is not an object raises [TypeError]. *)
Theorem send_raw_transaction_needs_txid w txn raw request_header body s v :
  allocated w (extended_header (self w)) →
  allocated w request_header →
  Base64.b64decode txn = inr raw →
  let req := request_for E w "POST" "/transactions" None (Some raw) request_header in
  network E (sent w) req = Responded body →
  PyStr.decode_utf8 body = Some s →
  json_loads E s = Some v →
  sent (send_raw_transaction E txn request_header w).2 = sent w ++ [req]
  ∧ (send_raw_transaction E txn request_header w).1
    = match v with
      | JDict fields =>
          match dict_get fields "txId" with
          | Some txid => Ret txid
          | None => Raise (KeyError "txId")
          end
      | _ => Raise TypeError
      end.
Proof.
  intros Hext Hopt Hraw req Hnet Hs Hv.
  destruct (send_raw_transaction_run E w txn raw request_header)
    as (h' & _ & Hrun); [done..|].
  rewrite Hrun. cbv zeta. fold req. rewrite Hnet. cbn [answer]. rewrite Hs, Hv.
  destruct v as [| | | | | |fields]; try done.
  cbn [getitem]. by destruct (dict_get fields "txId").
Qed.
End Errors.

Lemma barenode_configured : allocated Barenode.start (Some Barenode.configured).
Proof. intros l [= <-]. by eexists. Defined.

Lemma barenode_per_call : allocated Barenode.start (Some Barenode.per_call).
Proof. intros l [= <-]. by eexists. Defined.


Lemma send_raw_transaction_rejects_bad_base64_witness :
  send_raw_transaction Localnet.env "A" None Localnet.start
  = (Raise BinasciiError, Localnet.start).
Proof.
  exact (send_raw_transaction_rejects_bad_base64 Localnet.env Localnet.start "A" None
           Base64.BadPadding eq_refl).
Defined.

Lemma transport_failure_propagates_witness :
  (algod_request Barenode.env "GET" "/status" None None None Barenode.start).1
  = Raise (URLError "Connection refused")
  ∧ sent (algod_request Barenode.env "GET" "/status" None None None Barenode.start).2
    = [{| req_url := "http://localhost:8080/v1/status";
          req_headers :=
            [("X-Extra", VStr "1"); ("Accept", VStr "*/*");
             ("X-Algo-API-Token", VStr "secret")];
          req_method := "GET";
          req_data := None |}].
Proof.
  exact (transport_failure_propagates Barenode.env Barenode.start "GET" "/status"
           None None None "Connection refused"
           barenode_configured (allocated_None _) (allocated_None _) eq_refl).
Defined.

Lemma http_error_outcome_witness :
  (algod_request Localnet.env "GET" "/block/101" None None None Localnet.start).1
  = Raise (AlgodHTTPError (JStr "oops"))
  ∧ (algod_request Barenode.env "GET" "/block/7" None None None Barenode.start).1
    = Raise UnicodeDecodeError.
Proof.
  split.
  - exact (http_error_outcome Localnet.env Localnet.start "GET" "/block/101"
             None None None 500 (Localnet.utf8 "oops")
             start_extra (allocated_None _) (allocated_None _) eq_refl).
  - exact (http_error_outcome Barenode.env Barenode.start "GET" "/block/7"
             None None None 500 [Byte.xff]
             barenode_configured (allocated_None _) (allocated_None _) eq_refl).
Defined.

Lemma send_raw_transaction_needs_txid_witness :
  (send_raw_transaction Barenode.env "AA==" None Barenode.start).1
  = Raise (KeyError "txId")
  ∧ (send_raw_transaction Barenode.env "AQ==" None Barenode.start).1
    = Raise TypeError.
Proof.
  split.
  - exact (proj2 (send_raw_transaction_needs_txid Barenode.env Barenode.start "AA=="
                    [Byte.x00] None (Localnet.utf8 "{}") "{}" (JDict [])
                    barenode_configured (allocated_None _) eq_refl
                    eq_refl eq_refl eq_refl)).
  - exact (proj2 (send_raw_transaction_needs_txid Barenode.env Barenode.start "AQ=="
                    [Byte.x01] None (Localnet.utf8 "null") "null" JNull
                    barenode_configured (allocated_None _) eq_refl
                    eq_refl eq_refl eq_refl)).
Defined.

(** ** Headers and query *)

Section HeadersAndQuery.
Context (E : Env).

Lemma dict_get_None_keys (d : dict) k : k ∉ d.*1 → dict_get d k = None.
Proof.
  induction d as [|[k' v'] d IH]; [done|]. simpl. intros Hk.
  apply not_elem_of_cons in Hk as [Hne Hk].
  destruct (String.eqb_spec k' k); [congruence|by apply IH].
Qed.

(** With distinct keys in [o], [update] binds a key of [o] to its value in
    [o] and leaves the other keys as they were. *)
Lemma dict_get_update (d o : dict) k :
  NoDup o.*1 →
  dict_get (dict_update d o) k
  = match dict_get o k with
    | Some v => Some v
    | None => dict_get d k
    end.
Proof.
  revert d. induction o as [|[k0 v0] o IH]; intros d Hnd; [done|].
  apply NoDup_cons in Hnd as [Hk0 Hnd].
  rewrite dict_update_cons, IH by done. simpl.
  destruct (String.eqb_spec k0 k) as [->|Hne].
  - by rewrite (dict_get_None_keys o k), dict_get_set_eq.
  - by rewrite dict_get_set_ne.
Qed.

(** X6. For every header name other than the auth header (and for that one
    too on a no-auth path), the header map handed over holds the per-call
    value when the per-call dict has the name, and the configured value
    otherwise. *)
Theorem per_call_header_overrides w method requrl params data opt_header k :
  allocated w (extended_header (self w)) →
  allocated w opt_header →
  allocated w params →
  NoDup (contents w (extended_header (self w))).*1 →
  NoDup (contents w opt_header).*1 →
  k ≠ algod_auth_header E ∨ requrl ∈ no_auth E →
  ∃ req,
    sent (algod_request E method requrl params data opt_header w).2 = sent w ++ [req]
    ∧ dict_get (req_headers req) k
      = match dict_get (contents w opt_header) k with
        | Some v => Some v
        | None => dict_get (contents w (extended_header (self w))) k
        end.
Proof.
  intros Hext Hopt Hpar Hnd Hnd' Hk.
  destruct (algod_request_run E w method requrl params data opt_header)
    as (h' & _ & Hrun); [done..|].
  eexists. rewrite Hrun. split; [reflexivity|].
  cbn [request_for req_headers]. unfold headers_for.
  assert (Hboth : ∀ k,
    dict_get (dict_update (dict_update [] (contents w (extended_header (self w))))
                (contents w opt_header)) k
    = match dict_get (contents w opt_header) k with
      | Some v => Some v
      | None => dict_get (contents w (extended_header (self w))) k
      end).
  { intros k'. rewrite !dict_get_update by done.
    by destruct (dict_get (contents w (extended_header (self w))) k'). }
  case_bool_decide as Hout; [|apply Hboth].
  destruct Hk as [Hk|Hin]; [|done].
  by rewrite dict_get_set_ne.
Qed.


Lemma quote_plus_uint d :
  UrlParse.quote_plus (NilEmpty.string_of_uint d) = NilEmpty.string_of_uint d.
Proof.
  induction d; [reflexivity|..];
    cbn [NilEmpty.string_of_uint UrlParse.quote_plus]; rewrite IHd; reflexivity.
Qed.

(** The decimal text of an [int] has nothing for [quote_plus] to change. *)
Lemma quote_plus_str_of_int z :
  UrlParse.quote_plus (PyStr.str_of_int z) = PyStr.str_of_int z.
Proof.
  unfold PyStr.str_of_int.
  destruct (Z.to_int z) as [d|d]; cbn [NilZero.string_of_int].
  - destruct d; try reflexivity; apply quote_plus_uint.
  - cbn [UrlParse.quote_plus].
    assert (H : UrlParse.quote_plus (NilZero.string_of_uint d)
                = NilZero.string_of_uint d)
      by (destruct d; try reflexivity; apply quote_plus_uint).
    rewrite H. reflexivity.
Qed.

(** X8. [pending_transactions] always names [max] in the URL, for every
    integer: the query is [?max=] followed by the decimal text. *)
Theorem pending_transactions_always_max w max_txns :
  allocated w (extended_header (self w)) →
  ∃ req,
    sent (pending_transactions E max_txns w).2 = sent w ++ [req]
    ∧ req_url req
      = (algod_address (self w) +:+ versioned E "/transactions/pending")
        +:+ "?max=" +:+ PyStr.str_of_int max_txns.
Proof.
  intros Hext.
  destruct (pending_transactions_run E w max_txns) as (h' & _ & Hrun); [done|].
  eexists. rewrite Hrun. split; [reflexivity|].
  cbn [req_url]. rewrite path_for_query, <- append_assoc. f_equal.
  unfold query_string, UrlParse.urlencode. cbn [dict_truthy map UrlParse.join fst snd].
  cbn [PyStr.str]. rewrite quote_plus_str_of_int. reflexivity.
Qed.
End HeadersAndQuery.

Lemma per_call_header_overrides_witness :
  ∃ req,
    sent (algod_request Barenode.env "GET" "/versions" None None
            (Some Barenode.per_call) Barenode.start).2
    = sent Barenode.start ++ [req]
    ∧ dict_get (req_headers req) "X-Extra" = Some (VStr "2").
Proof.
  apply (per_call_header_overrides Barenode.env Barenode.start "GET" "/versions" None
           None (Some Barenode.per_call) "X-Extra"
           barenode_configured barenode_per_call (allocated_None _)).
  - apply (bool_decide_eq_true_1 _). reflexivity.
  - apply (bool_decide_eq_true_1 _). reflexivity.
  - left. discriminate.
Defined.


Lemma pending_transactions_always_max_witness :
  ∃ req,
    sent (pending_transactions Barenode.env (-5) Barenode.start).2
    = sent Barenode.start ++ [req]
    ∧ req_url req = "http://localhost:8080/v1/transactions/pending?max=-5".
Proof.
  exact (pending_transactions_always_max Barenode.env Barenode.start (-5)
           barenode_configured).
Defined.

(** ** The wrappers *)

Section WrapperFacts.
Context (E : Env).

(** [str] of an [int] tells the integers apart. *)
Lemma str_of_int_inj a b : PyStr.str_of_int a = PyStr.str_of_int b → a = b.
Proof.
  intros Heq. apply DecimalZ.to_int_inj.
  assert (Hback : ∀ z, NilZero.int_of_string (PyStr.str_of_int z) = Some (Z.to_int z)).
  { intros z. apply NilZero.isi; destruct z; simpl; try discriminate;
      intros [= H]; by apply DecimalPos.Unsigned.to_uint_nonnil in H. }
  pose proof (Hback a) as Ha. rewrite Heq, Hback in Ha. by injection Ha.
Qed.

(** A wrapper that passes neither params nor headers. *)
Lemma get_run w requrl :
  allocated w (extended_header (self w)) →
  let req := request_for E w "GET" requrl None None None in
  sent (algod_request E "GET" requrl None None None w).2 = sent w ++ [req]
  ∧ (algod_request E "GET" requrl None None None w).1
    = answer E (network E (sent w) req).
Proof.
  intros Hext req.
  destruct (algod_request_run E w "GET" requrl None None None)
    as (h' & _ & Hrun); [done|by intros l..|].
  by rewrite Hrun.
Qed.

(** X9. [block_info] asks once, with GET and no body, for the path
    [/block/] followed by the decimal text of the round, and returns what
    [json.loads] makes of the answer, as it is. *)
Theorem block_info_request w round :
  allocated w (extended_header (self w)) →
  ∃ req,
    sent (block_info E round w).2 = sent w ++ [req]
    ∧ req_method req = "GET"
    ∧ req_data req = None
    ∧ req_url req
      = algod_address (self w) +:+ versioned E ("/block/" +:+ PyStr.str_of_int round)
    ∧ (∀ body s v,
         network E (sent w) req = Responded body →
         PyStr.decode_utf8 body = Some s →
         json_loads E s = Some v →
         (block_info E round w).1 = Ret v).
Proof.
  intros Hext.
  destruct (get_run w ("/block/" +:+ PyStr.str_of_int round) Hext) as [Hsent Hret].
  eexists. split; [exact Hsent|]. repeat split.
  intros body s v Hnet Hs Hv. unfold block_info. rewrite Hret, Hnet.
  cbn [answer]. by rewrite Hs, Hv.
Qed.

(** X10. Two rounds never share a URL: [block_info] of different rounds,
    neither path being in the unversioned list, asks for different URLs. *)
Theorem block_info_url_inj w round round' :
  allocated w (extended_header (self w)) →
  "/block/" +:+ PyStr.str_of_int round ∉ unversioned_paths E →
  "/block/" +:+ PyStr.str_of_int round' ∉ unversioned_paths E →
  round ≠ round' →
  ∃ req req',
    sent (block_info E round w).2 = sent w ++ [req]
    ∧ sent (block_info E round' w).2 = sent w ++ [req']
    ∧ req_url req ≠ req_url req'.
Proof.
  intros Hext Hr Hr' Hne.
  destruct (get_run w ("/block/" +:+ PyStr.str_of_int round) Hext) as [Hsent _].
  destruct (get_run w ("/block/" +:+ PyStr.str_of_int round') Hext) as [Hsent' _].
  eexists _, _. split; [exact Hsent|]. split; [exact Hsent'|].
  cbn [request_for req_url contents]. rewrite !path_for_query. unfold versioned.
  rewrite !bool_decide_eq_true_2 by done.
  intros Heq. apply Hne, str_of_int_inj.
  change (query_string []) with "" in Heq. rewrite !append_nil_r in Heq.
  by do 3 apply String.app_inj in Heq.
Qed.

(** X11. The client carries nothing from one call to the next: after any
    call, however it ended, [algod_request] hands over the request it would
    have handed over before that call. *)
Theorem earlier_call_leaves_request (c : call E) w method requrl params data opt_header :
  allocated w (extended_header (self w)) →
  allocated w opt_header →
  allocated w params →
  let w' := (perform E c w).2 in
  sent (algod_request E method requrl params data opt_header w').2
  = sent w' ++ [request_for E w method requrl params data opt_header].
Proof.
  intros Hext Hopt Hpar w'.
  destruct (keeps_perform E w c w (framed_refl w)) as [[Hself Hheap] _].
  fold w' in Hself, Hheap.
  destruct (algod_request_run E w' method requrl params data opt_header)
    as (h' & _ & Hrun).
  - rewrite Hself. by apply (allocated_mono w).
  - by apply (allocated_mono w).
  - by apply (allocated_mono w).
  - rewrite Hrun. cbn [snd sent]. do 2 f_equal.
    unfold request_for. rewrite Hself.
    by rewrite !(contents_mono w w') by done.
Qed.

(** X12. Every wrapper other than the two that broadcast a transaction
    asks once, with GET and no body, and returns or raises what the answer
    to that request gives, with nothing done to it. *)
Theorem get_wrapper_request (c : call E) w :
  is_get_wrapper c = true →
  allocated w (extended_header (self w)) →
  ∃ req,
    sent (perform E c w).2 = sent w ++ [req]
    ∧ req_method req = "GET"
    ∧ req_data req = None
    ∧ (perform E c w).1 = answer E (network E (sent w) req).
Proof.
  intros Hc Hext.
  destruct c as [| | | |max_txns| | |address first lastr limit from_date to_date
                | | | | | | | | |];
    try discriminate Hc; cbn [perform];
    try (eexists; split; [|split; [|split]];
         [apply (proj1 (get_run w _ Hext))|done|done|apply (proj2 (get_run w _ Hext))]).
  - destruct (pending_transactions_run E w max_txns Hext) as (h' & _ & Hrun).
    eexists. by rewrite Hrun.
  - destruct (transactions_by_address_run E w address first lastr limit from_date
                to_date Hext) as (h' & _ & Hrun).
    eexists. by rewrite Hrun.
Qed.
End WrapperFacts.

Lemma block_info_request_witness :
  ∃ req,
    sent (block_info Localnet.env 100 Localnet.start).2 = sent Localnet.start ++ [req]
    ∧ req_method req = "GET"
    ∧ req_data req = None
    ∧ req_url req = "http://localhost:8080/v1/block/100".
Proof.
  destruct (block_info_request Localnet.env Localnet.start 100 start_extra)
    as (req & Hsent & Hm & Hd & Hurl & _).
  exists req. repeat split; [exact Hsent|exact Hm|exact Hd|exact Hurl].
Defined.

Lemma block_info_url_inj_witness :
  ∃ req req',
    sent (block_info Localnet.env 100 Localnet.start).2 = sent Localnet.start ++ [req]
    ∧ sent (block_info Localnet.env 101 Localnet.start).2
      = sent Localnet.start ++ [req']
    ∧ req_url req ≠ req_url req'.
Proof.
  apply (block_info_url_inj Localnet.env Localnet.start 100 101 start_extra).
  - apply (bool_decide_eq_false_1 _). reflexivity.
  - apply (bool_decide_eq_false_1 _). reflexivity.
  - discriminate.
Defined.

Lemma earlier_call_leaves_request_witness :
  sent (algod_request Localnet.env "GET" "/status" None None (Some Localnet.forged)
          (perform Localnet.env (BlockInfo Localnet.env 100) Localnet.start).2).2
  = sent (perform Localnet.env (BlockInfo Localnet.env 100) Localnet.start).2
    ++ [request_for Localnet.env Localnet.start "GET" "/status" None None
          (Some Localnet.forged)].
Proof.
  exact (earlier_call_leaves_request Localnet.env (BlockInfo Localnet.env 100)
           Localnet.start "GET" "/status" None None (Some Localnet.forged)
           start_extra start_forged (allocated_None _)).
Defined.

Lemma get_wrapper_request_witness :
  ∃ req,
    sent (perform Localnet.env (Health Localnet.env) Localnet.start).2
    = sent Localnet.start ++ [req]
    ∧ req_method req = "GET"
    ∧ req_data req = None
    ∧ (perform Localnet.env (Health Localnet.env) Localnet.start).1
      = answer Localnet.env (network Localnet.env (sent Localnet.start) req).
Proof.
  exact (get_wrapper_request Localnet.env (Health Localnet.env) Localnet.start
           eq_refl start_extra).
Defined.
